(** * The OSINT analyser pipeline: record store, collectors, translation and
      analysis tasks

    A shallow embedding of
      - [shared/models.py], [shared/database.py]          (the record store),
      - [collection/collector.py], [collection/telegram.py] (collection),
      - [workers/translation_service.py], [workers/analysis_service.py]
                                                             (the registries),
      - [workers/tasks/translate.py], [workers/tasks/analyse.py] (the tasks).

    Python values are dynamically typed, so columns hold [PyVal]s.  A table is
    the list of its rows in insertion order; [first()] is the head of the
    filtered list.  The storage engine is taken as a keyed record store:
    column types, NOT NULL and foreign keys are not enforced by the model, and
    a commit does not fail.  The broker accepts every task that is sent.
    Logging is not modelled, except where building the message can raise
    (a subscript, or the slice [v[:80]]). *)

From stdpp Require Import base option list strings gmap.
From Stdlib Require Import ZArith Lia.

Open Scope Z_scope.
Open Scope string_scope.
Open Scope list_scope.

(** ** Python values and exceptions *)

Inductive PyVal : Type :=
  | PyNone
  | PyBool (b : bool)
  | PyInt (n : Z)
  | PyStr (s : string)
  | PyDict (items : list (string * string))   (* a JSON object *)
  | PyObj.                                     (* any other object, opaque *)

#[global] Instance PyVal_eq_dec : EqDecision PyVal.
Proof. solve_decision. Defined.

#[global] Instance PyVal_inhabited : Inhabited PyVal := populate PyNone.

Inductive PyExn : Type :=
  | ContentNotFoundError        (* database.py *)
  | DatabaseConnectionError     (* database.py *)
  | AnalysisException           (* analysis_service.py *)
  | AttributeError
  | TypeError
  | KeyError
  | ValueError
  | OtherException (name : string).

#[global] Instance PyExn_eq_dec : EqDecision PyExn.
Proof. solve_decision. Defined.

(** What a call does: it returns a value or raises. *)
Inductive Outcome (A : Type) : Type :=
  | Returned (a : A)
  | Raised (e : PyExn).
Arguments Returned {A} a.
Arguments Raised {A} e.

#[global] Instance Outcome_eq_dec {A : Type} `{EqDecision A}
  : EqDecision (Outcome A).
Proof. solve_decision. Defined.

(** [bool(v)]: the truth value Python's [if v:] and [not v] test. *)
Definition truthy (v : PyVal) : bool :=
  match v with
  | PyNone => false
  | PyBool b => b
  | PyInt n => negb (Z.eqb n 0)
  | PyStr s => negb (String.eqb s "")
  | PyDict items => match items with [] => false | _ => true end
  | PyObj => true
  end.

(** [v[:n]], as the tasks use it when they log the first 80 characters: a
    string can be sliced, the other values of the model cannot. *)
Definition slice_prefix (v : PyVal) : Outcome unit :=
  match v with
  | PyStr _ => Returned tt
  | _ => Raised TypeError
  end.

(** [column == param] in a query: equal values match, and SQLAlchemy renders
    a comparison with [None] as [IS NULL], so a NULL column matches [None]
    and nothing else. *)
Definition sql_eq (column param : PyVal) : bool :=
  bool_decide (column = param).

(** AUTO_INCREMENT: the next key is one more than the largest key in use,
    and is at least 1. *)
Definition key_of (v : PyVal) : Z :=
  match v with PyInt n => n | _ => 0 end.

Definition next_id (keys : list PyVal) : Z :=
  1 + foldr (fun v acc => Z.max (key_of v) acc) 0 keys.

(** ** models.py *)

Module CollectorModel.
Record t : Type := mk {
  id : PyVal;
  short_name : PyVal;
  long_name : PyVal;
  enabled : PyVal
}.
End CollectorModel.

Module SourceModel.
Record t : Type := mk {
  id : PyVal;
  collector_id : PyVal;
  uid : PyVal;
  friendly_name : PyVal;
  user_note : PyVal;
  enabled : PyVal;
  source_metadata : PyVal
}.

(** The mapped column behind an attribute name, if it names one. *)
Definition column (s : t) (name : string) : option PyVal :=
  if String.eqb name "id" then Some (id s)
  else if String.eqb name "collector_id" then Some (collector_id s)
  else if String.eqb name "uid" then Some (uid s)
  else if String.eqb name "friendly_name" then Some (friendly_name s)
  else if String.eqb name "user_note" then Some (user_note s)
  else if String.eqb name "enabled" then Some (enabled s)
  else if String.eqb name "source_metadata" then Some (source_metadata s)
  else None.
End SourceModel.

Module ContentModel.
Record t : Type := mk {
  id : PyVal;
  source_id : PyVal;
  collection_time : PyVal;
  origin_time : PyVal;
  translated : PyVal;
  analysed : PyVal;
  original_text : PyVal;
  translated_text : PyVal;
  content_metadata : PyVal
}.

Definition column (c : t) (name : string) : option PyVal :=
  if String.eqb name "id" then Some (id c)
  else if String.eqb name "source_id" then Some (source_id c)
  else if String.eqb name "collection_time" then Some (collection_time c)
  else if String.eqb name "origin_time" then Some (origin_time c)
  else if String.eqb name "translated" then Some (translated c)
  else if String.eqb name "analysed" then Some (analysed c)
  else if String.eqb name "original_text" then Some (original_text c)
  else if String.eqb name "translated_text" then Some (translated_text c)
  else if String.eqb name "content_metadata" then Some (content_metadata c)
  else None.

(** Assignment to a mapped column; [None] when [name] is not one. *)
Definition set_column (c : t) (name : string) (v : PyVal) : option t :=
  let '(mk i s ct ot tr an o tx cm) := c in
  if String.eqb name "id" then Some (mk v s ct ot tr an o tx cm)
  else if String.eqb name "source_id" then Some (mk i v ct ot tr an o tx cm)
  else if String.eqb name "collection_time" then Some (mk i s v ot tr an o tx cm)
  else if String.eqb name "origin_time" then Some (mk i s ct v tr an o tx cm)
  else if String.eqb name "translated" then Some (mk i s ct ot v an o tx cm)
  else if String.eqb name "analysed" then Some (mk i s ct ot tr v o tx cm)
  else if String.eqb name "original_text" then Some (mk i s ct ot tr an v tx cm)
  else if String.eqb name "translated_text" then Some (mk i s ct ot tr an o v cm)
  else if String.eqb name "content_metadata" then Some (mk i s ct ot tr an o tx v)
  else None.
End ContentModel.

Module AnalysisRequirementModel.
Record t : Type := mk {
  id : PyVal;
  source_id : PyVal;
  llm_id : PyVal;
  name : PyVal;
  prompt : PyVal;
  enabled : PyVal
}.
End AnalysisRequirementModel.

Module AnalysisResultModel.
Record t : Type := mk {
  id : PyVal;
  req_id : PyVal;
  content_id : PyVal;
  analysis_time : PyVal;
  output : PyVal
}.
End AnalysisResultModel.

(** The tables, named as [__tablename__] names them. *)
Record Database : Type := mkDatabase {
  collector : list CollectorModel.t;
  source : list SourceModel.t;
  content : list ContentModel.t;
  analysis_requirement : list AnalysisRequirementModel.t;
  analysis_result : list AnalysisResultModel.t
}.

(** ** database.py *)

(** [session_scope]: the body runs in a transaction that is committed when
    the body returns and rolled back when it raises. *)
Definition session_scope {A : Type}
    (body : Database -> Outcome (A * Database)) (db : Database)
    : Outcome A * Database :=
  match body db with
  | Returned (a, db') => (Returned a, db')
  | Raised e => (Raised e, db)
  end.

(** [query.first()] over a filtered table. *)
Definition first {A : Type} (p : A -> bool) (table : list A) : option A :=
  List.find p table.

(** The UPDATE a commit issues for the row [first] returned. *)
Fixpoint update_first {A : Type} (p : A -> bool) (new : A) (table : list A)
    : list A :=
  match table with
  | [] => []
  | row :: rest =>
      if p row then new :: rest else row :: update_first p new rest
  end.

Definition set_content (db : Database) (rows : list ContentModel.t) : Database :=
  mkDatabase (collector db) (source db) rows
             (analysis_requirement db) (analysis_result db).

Definition set_source (db : Database) (rows : list SourceModel.t) : Database :=
  mkDatabase (collector db) rows (content db)
             (analysis_requirement db) (analysis_result db).

Definition set_analysis_result (db : Database)
    (rows : list AnalysisResultModel.t) : Database :=
  mkDatabase (collector db) (source db) (content db)
             (analysis_requirement db) rows.

(** An attribute that instances of a model class carry besides their mapped
    columns (a relationship of models.py, or what the declarative base
    provides): the value read from it, and whether assigning to it raises.
    An accepted assignment changes no column. *)
Record ExtraAttr : Type := mkExtraAttr {
  extra_value : PyVal;
  extra_assign : PyVal -> option PyExn
}.

(** The requirement dictionaries [get_analysis_requirements] builds. *)
Definition requirement_dict (r : AnalysisRequirementModel.t)
    : gmap string PyVal :=
  <["req_id" := AnalysisRequirementModel.id r]>
  (<["name" := AnalysisRequirementModel.name r]>
  (<["llm_id" := AnalysisRequirementModel.llm_id r]>
  (<["prompt" := AnalysisRequirementModel.prompt r]> ∅))).

(** ** translation_service.py, analysis_service.py *)

(** A provider class: what its [translate] (or [analyse]) does with its
    arguments.  Instantiating a provider does not fail. *)
Record TranslationService : Type := mkTranslationService {
  translate : PyVal -> Outcome PyVal
}.

Record AnalysisService : Type := mkAnalysisService {
  analyse : PyVal -> PyVal -> Outcome PyVal
}.

(** [register]: [cls._registry[uid] = service_cls]. *)
Definition register {S : Type} (uid : string) (service_cls : S)
    (registry : gmap string S) : gmap string S :=
  <[uid := service_cls]> registry.

(** [get_service]: [cls._registry.get(uid)]. *)
Definition get_service {S : Type} (uid : string) (registry : gmap string S)
    : option S :=
  registry !! uid.

(** ** What a process finds around it *)

Class Runtime : Type := mkRuntime {
  (** the non-column attributes of [ContentModel] and [SourceModel]
      instances *)
  content_extra : string -> option ExtraAttr;
  source_extra : string -> option ExtraAttr;
  (** MYSQL_USER, MYSQL_PASSWORD and MYSQL_DATABASE are all set *)
  mysql_params : bool;
  (** [Database.connect] returns [True] *)
  database_connect : bool;
  (** what [self.engine.disconnect()] raises, if it does *)
  engine_disconnect : option PyExn;
  (** importing the modules of [services/translation]: the registrations
      they perform, in order, and the exception that stops the loading, if
      one does *)
  translation_modules : list (string * TranslationService) * option PyExn;
  (** the same for [services/analysis] *)
  analysis_modules : list (string * AnalysisService) * option PyExn;
  (** the clock reading the column defaults take *)
  utcnow : PyVal
}.

Section RecordStore.

Context {rt : Runtime}.

(** [getattr(content, name)], [None] when the attribute is absent. *)
Definition content_getattr (c : ContentModel.t) (name : string)
    : option PyVal :=
  match ContentModel.column c name with
  | Some v => Some v
  | None => extra_value <$> content_extra name
  end.

Definition content_hasattr (c : ContentModel.t) (name : string) : bool :=
  match content_getattr c name with Some _ => true | None => false end.

(** [setattr(content, name, v)]: a mapped column takes the value; an
    attribute that is not a column leaves the row as it is. *)
Definition content_setattr (c : ContentModel.t) (name : string) (v : PyVal)
    : Outcome ContentModel.t :=
  match ContentModel.set_column c name v with
  | Some c' => Returned c'
  | None =>
      match content_extra name with
      | Some a =>
          match extra_assign a v with
          | Some e => Raised e
          | None => Returned c
          end
      | None => Returned c
      end
  end.

Definition source_getattr (s : SourceModel.t) (name : string)
    : option PyVal :=
  match SourceModel.column s name with
  | Some v => Some v
  | None => extra_value <$> source_extra name
  end.

Definition content_by_id (content_id : PyVal) (c : ContentModel.t) : bool :=
  sql_eq (ContentModel.id c) content_id.

Definition source_by_id (source_id : PyVal) (s : SourceModel.t) : bool :=
  sql_eq (SourceModel.id s) source_id.

Definition get_content_attribute (content_id : PyVal)
    (attribute_name : string) : Database -> Outcome PyVal * Database :=
  session_scope (fun db =>
    match first (content_by_id content_id) (content db) with
    | Some c =>
        Returned (default PyNone (content_getattr c attribute_name), db)
    | None => Raised ContentNotFoundError
    end).

Definition set_content_attribute (content_id : PyVal)
    (attribute_name : string) (new_value : PyVal)
    : Database -> Outcome unit * Database :=
  session_scope (fun db =>
    match first (content_by_id content_id) (content db) with
    | Some c =>
        if content_hasattr c attribute_name then
          match content_setattr c attribute_name new_value with
          | Returned c' =>
              Returned (tt, set_content db
                (update_first (content_by_id content_id) c' (content db)))
          | Raised e => Raised e
          end
        else Raised AttributeError
    | None => Raised ContentNotFoundError
    end).

(** A missing source is reported with [ContentNotFoundError] as well. *)
Definition get_source_attribute (source_id : PyVal)
    (attribute_name : string) : Database -> Outcome PyVal * Database :=
  session_scope (fun db =>
    match first (source_by_id source_id) (source db) with
    | Some s =>
        Returned (default PyNone (source_getattr s attribute_name), db)
    | None => Raised ContentNotFoundError
    end).

Definition get_analysis_requirements (source_id : PyVal)
    : Database -> Outcome (list (gmap string PyVal)) * Database :=
  session_scope (fun db =>
    let analysis_requirements :=
      List.filter
        (fun r => sql_eq (AnalysisRequirementModel.source_id r) source_id)
        (analysis_requirement db) in
    Returned
      (requirement_dict <$>
         List.filter (fun r => truthy (AnalysisRequirementModel.enabled r))
                     analysis_requirements,
       db)).

Definition save_analysis_result (content_id req_id output : PyVal)
    : Database -> Outcome PyVal * Database :=
  session_scope (fun db =>
    let new_id :=
      next_id (AnalysisResultModel.id <$> analysis_result db) in
    let new_analysis_result :=
      AnalysisResultModel.mk (PyInt new_id) req_id content_id utcnow output in
    Returned (PyInt new_id,
              set_analysis_result db
                (analysis_result db ++ [new_analysis_result]))).

End RecordStore.

(** ** The state the processes share, and code that changes it *)

(** A task as [send_task] hands it to the broker. *)
Record Task : Type := mkTask {
  task_name : string;
  task_args : list PyVal;
  task_queue : string
}.

Record World : Type := mkWorld {
  database : Database;
  translation_registry : gmap string TranslationService;
  analysis_registry : gmap string AnalysisService;
  broker : list Task
}.

(** A computation reads and changes the world and returns or raises; what
    it did before it raised stays done. *)
Definition M (A : Type) : Type := World -> Outcome A * World.

#[global] Instance M_ret : MRet M := fun A a w => (Returned a, w).

#[global] Instance M_bind : MBind M := fun A B f m w =>
  match m w with
  | (Returned a, w') => f a w'
  | (Raised e, w') => (Raised e, w')
  end.

Definition raise {A : Type} (e : PyExn) : M A := fun w => (Raised e, w).

Definition of_outcome {A : Type} (o : Outcome A) : M A := fun w => (o, w).

(** A record-store call, run on the database of the world. *)
Definition on_database {A : Type}
    (call : Database -> Outcome A * Database) : M A := fun w =>
  let '(o, db) := call (database w) in
  (o, mkWorld db (translation_registry w) (analysis_registry w) (broker w)).

(** [app.send_task(name, args=args, queue=queue)]. *)
Definition send_task (name : string) (args : list PyVal) (queue : string)
    : M unit := fun w =>
  (Returned tt,
   mkWorld (database w) (translation_registry w) (analysis_registry w)
           (broker w ++ [mkTask name args queue])).

(** [requirement[key]]. *)
Definition subscript (d : gmap string PyVal) (key : string) : M PyVal :=
  match d !! key with
  | Some v => mret v
  | None => raise KeyError
  end.

Section Tasks.

Context {rt : Runtime}.

(** [connect_db] of database.py. *)
Definition connect_db : M unit :=
  if negb mysql_params then raise DatabaseConnectionError
  else if negb database_connect then raise DatabaseConnectionError
  else mret tt.

(** [database.disconnect()], which calls [self.engine.disconnect()]. *)
Definition disconnect : M unit :=
  match engine_disconnect with
  | Some e => raise e
  | None => mret tt
  end.

(** *** translate.py *)

(** The modules register themselves as they are imported; a failure is
    handled by disconnecting and raising it again. *)
Definition load_translation_services : M unit := fun w =>
  let '(registrations, failure) := translation_modules in
  let w' :=
    mkWorld (database w)
            (foldl (fun reg '(uid, cls) => register uid cls reg)
                   (translation_registry w) registrations)
            (analysis_registry w) (broker w) in
  match failure with
  | Some e => (Raised e, w')
  | None => (Returned tt, w')
  end.

Definition or_disconnect (load : M unit) : M unit := fun w =>
  match load w with
  | (Returned _, w') => (Returned tt, w')
  | (Raised err, w') => (disconnect ≫= (fun _ => raise err)) w'
  end.

(** [TranslationService.get_service(uid)()]: calling [None] raises. *)
Definition translation_service (uid : string) : M TranslationService :=
  fun w =>
    match get_service uid (translation_registry w) with
    | Some cls => (Returned cls, w)
    | None => (Raised TypeError, w)
    end.

(** The [try ... except Exception: raise] around the body raises what the
    body raises. *)
Definition translate_content (content_id : PyVal) : M PyVal :=
  _ ← connect_db;
  original_text ←
    on_database (get_content_attribute content_id "original_text");
  _ ← of_outcome (slice_prefix original_text);
  _ ← or_disconnect load_translation_services;
  service ← translation_service "gpt3.5";
  translated_text ← of_outcome (translate service original_text);
  if truthy translated_text then
    _ ← of_outcome (slice_prefix translated_text);
    _ ← on_database
          (set_content_attribute content_id "translated_text"
                                 translated_text);
    _ ← send_task "analyse_content" [content_id] "analysis";
    mret (PyBool true)
  else mret (PyBool false).

(** *** analyse.py *)

Definition load_analysis_services : M unit := fun w =>
  let '(registrations, failure) := analysis_modules in
  let w' :=
    mkWorld (database w) (translation_registry w)
            (foldl (fun reg '(uid, cls) => register uid cls reg)
                   (analysis_registry w) registrations)
            (broker w) in
  match failure with
  | Some e => (Raised e, w')
  | None => (Returned tt, w')
  end.

(** [AnalysisService.get_service(service_id)]. *)
Definition analysis_service (service_id : string)
    : M (option AnalysisService) := fun w =>
  (Returned (get_service service_id (analysis_registry w)), w).

(** The body of the loop over the requirements.  [Some v] is the [return
    v] that leaves the task from inside the loop, [None] goes on to the
    next requirement. *)
Definition analyse_requirement (content_id translated_text : PyVal)
    (requirement : gmap string PyVal) : M (option PyVal) :=
  _ ← subscript requirement "name";
  _ ← subscript requirement "llm_id";
  let service_id := "gpt3.5" in
  service ← analysis_service service_id;
  match service with
  | None => mret (Some (PyBool false))
  | Some service =>
      prompt ← subscript requirement "prompt";
      analysis ← of_outcome (analyse service prompt translated_text);
      _ ← of_outcome (slice_prefix analysis);
      req_id ← subscript requirement "req_id";
      _ ← on_database (save_analysis_result content_id req_id analysis);
      mret None
  end.

Fixpoint analyse_requirements (content_id translated_text : PyVal)
    (requirements : list (gmap string PyVal)) : M PyVal :=
  match requirements with
  | [] => mret (PyBool true)
  | requirement :: rest =>
      returned ←
        analyse_requirement content_id translated_text requirement;
      match returned with
      | Some v => mret v
      | None => analyse_requirements content_id translated_text rest
      end
  end.

(** The handler of the first [try] names [database.DatabaseConnectionError],
    an attribute the [Database] instance does not have: when [connect_db]
    raises, looking the handler up raises [AttributeError]. *)
Definition connect_db_or_attribute_error : M unit := fun w =>
  match connect_db w with
  | (Raised _, w') => (Raised AttributeError, w')
  | r => r
  end.

Definition analyse_content (content_id : PyVal) : M PyVal :=
  _ ← connect_db_or_attribute_error;
  _ ← or_disconnect load_analysis_services;
  translated_text ←
    on_database (get_content_attribute content_id "translated_text");
  source_id ← on_database (get_content_attribute content_id "source_id");
  source_enabled ← on_database (get_source_attribute source_id "enabled");
  if negb (truthy source_enabled) then mret PyNone
  else
    requirements ← on_database (get_analysis_requirements source_id);
    analyse_requirements content_id translated_text requirements.

End Tasks.

(** ** collector.py *)

Record Collector : Type := mkCollector {
  short_name : string;
  long_name : string;
  collector_id : PyVal
}.

Record Message : Type := mkMessage {
  message : option string;     (* [event.message.message] *)
  date : PyVal                 (* [event.message.date] *)
}.

(** A new-message event of telegram.py: [sender_uid] is [str(sender.id)],
    absent when [get_sender()] gave [None]. *)
Record NewMessage : Type := mkNewMessage {
  sender_uid : option string;
  event_message : option Message
}.

Section Collection.

Context {rt : Runtime}.

Definition source_by_uid (self : Collector) (uid : string)
    (s : SourceModel.t) : bool :=
  sql_eq (SourceModel.uid s) (PyStr uid)
  && sql_eq (SourceModel.collector_id s) (collector_id self).

Definition add_source (self : Collector) (uid friendly_name : string)
    : Database -> Outcome (option SourceModel.t) * Database :=
  session_scope (fun db =>
    match first (source_by_uid self uid) (source db) with
    | None =>
        let new_source :=
          SourceModel.mk
            (PyInt (next_id (SourceModel.id <$> source db)))
            (collector_id self) (PyStr uid) (PyStr friendly_name)
            PyNone (PyBool true) PyNone in
        Returned (Some new_source, set_source db (source db ++ [new_source]))
    | Some existing_source => Returned (None, db)
    end).

(** The constructor is given [source_id], [original_text], [origin_time]
    and a keyword [metadata], which is not the mapped attribute
    [content_metadata]; the other columns take their defaults when the row
    is inserted. *)
Definition add_content (self : Collector) (source_uid : string)
    (origin_time text metadata : PyVal)
    : Database -> Outcome PyVal * Database :=
  session_scope (fun db =>
    match first (source_by_uid self source_uid) (source db) with
    | None => Returned (PyNone, db)
    | Some source =>
        let new_id := next_id (ContentModel.id <$> content db) in
        let new_content :=
          ContentModel.mk (PyInt new_id) (SourceModel.id source) utcnow
                          origin_time (PyBool false) (PyBool false)
                          text PyNone PyNone in
        Returned (PyInt new_id, set_content db (content db ++ [new_content]))
    end).

Definition get_source (self : Collector) (uid : string)
    : Database -> Outcome (option SourceModel.t) * Database :=
  session_scope (fun db =>
    Returned (first (source_by_uid self uid) (source db), db)).

(** ** telegram.py *)

Definition process_message (self : Collector) (event : NewMessage)
    : M unit :=
  match event_message event with
  | Some msg =>
      match message msg with
      | Some text =>
          if negb (Nat.eqb (String.length text) 0) then
            match sender_uid event with
            | None => raise AttributeError
            | Some uid =>
                content_id ←
                  on_database
                    (add_content self uid (date msg) (PyStr text)
                                 (PyDict []));
                if truthy content_id then
                  send_task "translate_content" [content_id] "translation"
                else mret tt
            end
          else mret tt
      | None => mret tt
      end
  | None => mret tt
  end.

End Collection.

(** [c] with [text] for its translated text. *)
Definition with_translated_text (c : ContentModel.t) (text : PyVal)
    : ContentModel.t :=
  ContentModel.mk
    (ContentModel.id c) (ContentModel.source_id c)
    (ContentModel.collection_time c) (ContentModel.origin_time c)
    (ContentModel.translated c) (ContentModel.analysed c)
    (ContentModel.original_text c) text (ContentModel.content_metadata c).

(** ** Sample data

    The end-to-end scenario: collector 1 watches the channel "chan-42"
    (source 7), content 101 reads "Bonjour le monde", and requirement 5 asks
    for the sentiment. *)

Definition sample_extra (name : string) : option ExtraAttr :=
  if String.eqb name "metadata" then Some (mkExtraAttr PyObj (fun _ => None))
  else None.

Definition stub_translate : TranslationService :=
  mkTranslationService (fun text =>
    if bool_decide (text = PyStr "Bonjour le monde")
    then Returned (PyStr "Hello world")
    else Returned PyNone).

Definition stub_analyse : AnalysisService :=
  mkAnalysisService (fun prompt text => Returned (PyStr "neutral")).

Definition sample_runtime : Runtime :=
  mkRuntime sample_extra sample_extra true true None
            ([("gpt3.5", stub_translate)], None)
            ([("gpt3.5", stub_analyse)], None)
            (PyInt 1700000000).

Definition sample_source : SourceModel.t :=
  SourceModel.mk (PyInt 7) (PyInt 1) (PyStr "chan-42") (PyStr "News Channel")
                 PyNone (PyBool true) PyNone.

Definition sample_content : ContentModel.t :=
  ContentModel.mk (PyInt 101) (PyInt 7) (PyInt 1699999999) (PyInt 1699999990)
                  (PyBool false) (PyBool false) (PyStr "Bonjour le monde")
                  PyNone PyNone.

Definition sample_requirement : AnalysisRequirementModel.t :=
  AnalysisRequirementModel.mk (PyInt 5) (PyInt 7) (PyInt 1)
                              (PyStr "sentiment") (PyStr "sentiment")
                              (PyBool true).

Definition sample_db : Database :=
  mkDatabase
    [CollectorModel.mk (PyInt 1) (PyStr "telegram")
                       (PyStr "Telegram Channel Monitor") (PyBool true)]
    [sample_source] [sample_content] [sample_requirement] [].

Definition sample_world : World := mkWorld sample_db ∅ ∅ [].

Definition sample_collector : Collector :=
  mkCollector "telegram" "Telegram Channel Monitor" (PyInt 1).

(** Content 101 once translated. *)
Definition sample_translated_world : World :=
  mkWorld
    (set_content sample_db [with_translated_text sample_content
                                                 (PyStr "Hello world")])
    ∅ ∅ [].

(** The same store with the source switched off. *)
Definition sample_disabled_world : World :=
  mkWorld
    (set_source (database sample_translated_world)
       [SourceModel.mk (PyInt 7) (PyInt 1) (PyStr "chan-42")
                       (PyStr "News Channel") PyNone (PyBool false) PyNone])
    ∅ ∅ [].

(** A runtime whose translation provider is rate limited. *)
Definition rate_limited_translate : TranslationService :=
  mkTranslationService (fun text => Raised (OtherException "RateLimitError")).

Definition rate_limited_runtime : Runtime :=
  mkRuntime sample_extra sample_extra true true None
            ([("gpt3.5", rate_limited_translate)], None)
            ([("gpt3.5", stub_analyse)], None)
            (PyInt 1700000000).

(** A second analysis provider, registered under another identifier. *)
Definition stub_analyse_other : AnalysisService :=
  mkAnalysisService (fun prompt text => Returned (PyStr "positive")).

Definition sample_analysis_world : World :=
  mkWorld (database sample_translated_world) ∅
          (register "gpt4" stub_analyse_other
             (register "gpt3.5" stub_analyse ∅))
          [].

(** Messages of the channel: one with text, one without. *)
Definition sample_event : NewMessage :=
  mkNewMessage (Some "chan-42")
    (Some (mkMessage (Some "Bonjour le monde") (PyInt 1699999990))).

Definition sample_empty_event : NewMessage :=
  mkNewMessage (Some "chan-42")
    (Some (mkMessage (Some "") (PyInt 1699999990))).

(** ** The rest of collector.py and telegram.py *)

Definition set_collector (db : Database) (rows : list CollectorModel.t)
    : Database :=
  mkDatabase rows (source db) (content db)
             (analysis_requirement db) (analysis_result db).

Definition collector_by_short_name (self : Collector)
    (c : CollectorModel.t) : bool :=
  sql_eq (CollectorModel.short_name c) (PyStr (short_name self)).

(** The [Database] object of a collector after [_connect_db]: its engine is
    connected, or [session_scope] raises on it, at
    [sessionmaker(bind=self.engine)] when no engine was set, or at the first
    query when the engine cannot reach the server. *)
Inductive Connection : Type :=
  | Connected
  | Unconnected (e : PyExn).

Definition collector_session_scope {A : Type} (connection : Connection)
    (body : Database -> Outcome (A * Database))
    : Database -> Outcome A * Database :=
  match connection with
  | Connected => session_scope body
  | Unconnected e => fun db => (Raised e, db)
  end.

(** [_connect_db]: [False] when a parameter is missing, which leaves the
    [Database] object without an engine, or when [connect] fails; [True]
    otherwise.  [session_error] is what a session raises once [connect]
    has failed. *)
Definition _connect_db {rt : Runtime} (session_error : PyExn)
    : bool * Connection :=
  if negb mysql_params then (false, Unconnected AttributeError)
  else if negb database_connect then (false, Unconnected session_error)
  else (true, Connected).

(** [_register_collector]: the collector is registered under its
    [short_name] unless a row with that name exists. *)
Definition _register_collector (self : Collector) (connection : Connection)
    : Database -> Outcome unit * Database :=
  collector_session_scope connection (fun db =>
    match first (collector_by_short_name self) (collector db) with
    | None =>
        let new_collector :=
          CollectorModel.mk
            (PyInt (next_id (CollectorModel.id <$> collector db)))
            (PyStr (short_name self)) (PyStr (long_name self))
            (PyBool true) in
        Returned (tt, set_collector db (collector db ++ [new_collector]))
    | Some existing_collector => Returned (tt, db)
    end).

(** [_get_collector_id]: the collector with [self.collector_id] set to the
    key of its row, or to [None] when it has no row. *)
Definition _get_collector_id (self : Collector) (connection : Connection)
    : Database -> Outcome Collector * Database :=
  collector_session_scope connection (fun db =>
    match first (collector_by_short_name self) (collector db) with
    | Some c =>
        Returned
          (mkCollector (short_name self) (long_name self)
                       (CollectorModel.id c), db)
    | None =>
        Returned (mkCollector (short_name self) (long_name self) PyNone, db)
    end).

(** [Collector.__init__]: what [_connect_db] returns is dropped, and the
    collector is registered and looked up whether or not it connected.  The
    result is the collector as the constructor leaves it. *)
Definition Collector__init__ {rt : Runtime} (short_name long_name : string)
    (session_error : PyExn) : Database -> Outcome Collector * Database :=
  fun db =>
    let self := mkCollector short_name long_name PyNone in
    let '(_, connection) := _connect_db session_error in
    match _register_collector self connection db with
    | (Returned _, db') => _get_collector_id self connection db'
    | (Raised e, db') => (Raised e, db')
    end.

(** A dialog as [iter_dialogs] yields it: whether its entity is a
    [Channel], and [str(dialog.entity.id)], [str(dialog.entity.title)]. *)
Record Dialog : Type := mkDialog {
  is_channel : bool;
  entity_id : string;
  entity_title : string
}.

(** [telegram_init]: every channel among the dialogs is added as a source;
    what [add_source] returns is dropped. *)
Fixpoint telegram_init (self : Collector) (dialogs : list Dialog)
    (db : Database) : Outcome unit * Database :=
  match dialogs with
  | [] => (Returned tt, db)
  | dialog :: rest =>
      if is_channel dialog then
        match add_source self (entity_id dialog) (entity_title dialog) db with
        | (Returned _, db') => telegram_init self rest db'
        | (Raised e, db') => (Raised e, db')
        end
      else telegram_init self rest db
  end.

(** ** services/translation/deepl.py *)

(** [DeepLTranslate]: with or without DEEPL_API_KEY in the environment,
    [translate] returns [None]. *)
Definition DeepLTranslate (deepl_api_key : option string)
    : TranslationService :=
  mkTranslationService (fun text =>
    match deepl_api_key with
    | None => Returned PyNone
    | Some key =>
        if negb (truthy (PyStr key)) then Returned PyNone
        else Returned PyNone
    end).

(** ** More sample data *)

(** A runtime whose translation directory holds the DeepL module only. *)
Definition deepl_only_runtime : Runtime :=
  mkRuntime sample_extra sample_extra true true None
            ([("deepl", DeepLTranslate (Some "key"))], None)
            ([], None)
            (PyInt 1700000000).

(** A runtime whose analysis provider answers with a JSON object. *)
Definition object_analyse : AnalysisService :=
  mkAnalysisService (fun prompt text =>
    Returned (PyDict [("sentiment", "neutral")])).

Definition object_runtime : Runtime :=
  mkRuntime sample_extra sample_extra true true None
            ([("gpt3.5", stub_translate)], None)
            ([("gpt3.5", object_analyse)], None)
            (PyInt 1700000000).

(** A runtime whose analysis provider fails on the prompt "entities". *)
Definition picky_analyse : AnalysisService :=
  mkAnalysisService (fun prompt text =>
    if bool_decide (prompt = PyStr "entities") then Raised AnalysisException
    else Returned (PyStr "neutral")).

Definition picky_runtime : Runtime :=
  mkRuntime sample_extra sample_extra true true None
            ([("gpt3.5", stub_translate)], None)
            ([("gpt3.5", picky_analyse)], None)
            (PyInt 1700000000).

(** The translated store with a second requirement, for entities. *)
Definition sample_two_requirements_world : World :=
  mkWorld
    (mkDatabase (collector sample_db) (source sample_db)
       (content (database sample_translated_world))
       [sample_requirement;
        AnalysisRequirementModel.mk (PyInt 6) (PyInt 7) (PyInt 1)
          (PyStr "entities") (PyStr "entities") (PyBool true)]
       [])
    ∅ ∅ [].

Definition sample_dialogs : list Dialog :=
  [mkDialog true "chan-42" "News Channel";
   mkDialog false "user-1" "A User";
   mkDialog true "chan-43" "Other Channel";
   mkDialog true "chan-43" "Other Channel"].

(** A message from a channel that is not a source. *)
Definition sample_unknown_event : NewMessage :=
  mkNewMessage (Some "chan-99")
    (Some (mkMessage (Some "Hola") (PyInt 1699999990))).

(** A message without a sender. *)
Definition sample_no_sender_event : NewMessage :=
  mkNewMessage None (Some (mkMessage (Some "Hola") (PyInt 1699999990))).

(** A runtime without the database parameters in its environment. *)
Definition offline_runtime : Runtime :=
  mkRuntime sample_extra sample_extra false true None
            ([("gpt3.5", stub_translate)], None)
            ([("gpt3.5", stub_analyse)], None)
            (PyInt 1700000000).

(** The translated store with the source's [enabled] left null. *)
Definition sample_null_source_world : World :=
  mkWorld
    (set_source (database sample_translated_world)
       [SourceModel.mk (PyInt 7) (PyInt 1) (PyStr "chan-42")
                       (PyStr "News Channel") PyNone PyNone PyNone])
    ∅ ∅ [].

(** A runtime whose translation provider finds no API key and returns
    [None], as [GPTTranslate.translate] does without OPENAI_API_KEY. *)
Definition keyless_translate : TranslationService :=
  mkTranslationService (fun text => Returned PyNone).

Definition keyless_runtime : Runtime :=
  mkRuntime sample_extra sample_extra true true None
            ([("gpt3.5", keyless_translate)], None)
            ([("gpt3.5", stub_analyse)], None)
            (PyInt 1700000000).

(** A runtime whose database server refuses the connection. *)
Definition unreachable_runtime : Runtime :=
  mkRuntime sample_extra sample_extra true false None
            ([("gpt3.5", stub_translate)], None)
            ([("gpt3.5", stub_analyse)], None)
            (PyInt 1700000000).

(** The values a column of [ContentModel] takes as models.py declares it: a
    string or null in the [Text] columns, a boolean or null in the [Boolean]
    columns.  The keys and the [DateTime] columns are not covered. *)
Definition content_column_takes (name : string) (v : PyVal) : bool :=
  if String.eqb name "original_text" || String.eqb name "translated_text"
     || String.eqb name "content_metadata"
  then match v with PyStr _ | PyNone => true | _ => false end
  else if String.eqb name "translated" || String.eqb name "analysed"
  then match v with PyBool _ | PyNone => true | _ => false end
  else false.

(** The natural keys of the source rows: owner and uid. *)
Definition source_keys (db : Database) : list (PyVal * PyVal) :=
  (fun s => (SourceModel.collector_id s, SourceModel.uid s)) <$> source db.

(** The registrations of a module directory, applied in order. *)
Definition load_modules {S : Type} (registrations : list (string * S))
    (registry : gmap string S) : gmap string S :=
  foldl (fun reg '(uid, cls) => register uid cls reg) registry registrations.

(** The result row [res] holds, for the requirement dictionary, what
    [service] answered to its prompt about [text], stamped [now]. *)
Definition answered (service : AnalysisService) (content_id text now : PyVal)
    (res : AnalysisResultModel.t) (requirement : gmap string PyVal) : Prop :=
  exists prompt out,
    requirement !! "prompt" = Some prompt
    /\ requirement !! "req_id" = Some (AnalysisResultModel.req_id res)
    /\ analyse service prompt text = Returned (PyStr out)
    /\ AnalysisResultModel.output res = PyStr out
    /\ AnalysisResultModel.content_id res = content_id
    /\ AnalysisResultModel.analysis_time res = now.

(** The same for a requirement row. *)
Definition answers (service : AnalysisService) (content_id text now : PyVal)
    (res : AnalysisResultModel.t) (r : AnalysisRequirementModel.t) : Prop :=
  exists out,
    analyse service (AnalysisRequirementModel.prompt r) text
    = Returned (PyStr out)
    /\ AnalysisResultModel.output res = PyStr out
    /\ AnalysisResultModel.req_id res = AnalysisRequirementModel.id r
    /\ AnalysisResultModel.content_id res = content_id
    /\ AnalysisResultModel.analysis_time res = now.

(** The world after the analysis modules have loaded. *)
Definition analysis_loaded {rt : Runtime} (w : World) : World :=
  mkWorld (database w) (translation_registry w)
          (load_modules (fst analysis_modules) (analysis_registry w))
          (broker w).

(** ** Vocabulary of the properties *)

(** Two worlds with the same rows and the same tasks. *)
Definition same_store (w w' : World) : Prop :=
  database w' = database w /\ broker w' = broker w.

(** A task invocation fails when it raises or returns [False] ("False on
    non-exception failure", as the docstring of [analyse_content] has it). *)
Definition failed (o : Outcome PyVal) : Prop :=
  match o with
  | Raised _ => True
  | Returned v => v = PyBool false
  end.

(** A translation provider fails when it raises or returns no text. *)
Definition provider_fails (r : Outcome PyVal) : Prop :=
  match r with
  | Raised _ => True
  | Returned v => truthy v = false
  end.

(** The enabled requirement rows of a source, in table order. *)
Definition enabled_requirements (source_id : PyVal) (db : Database)
    : list AnalysisRequirementModel.t :=
  List.filter
    (fun r => sql_eq (AnalysisRequirementModel.source_id r) source_id
              && truthy (AnalysisRequirementModel.enabled r))
    (analysis_requirement db).

(** The world [w] with the result rows [new] appended. *)
Definition results_added (w : World) (new : list AnalysisResultModel.t)
    : World :=
  mkWorld
    (set_analysis_result (database w) (analysis_result (database w) ++ new))
    (translation_registry w) (analysis_registry w) (broker w).

(** [r] with another [llm_id]. *)
Definition with_llm_id (r : AnalysisRequirementModel.t) (llm_id : PyVal)
    : AnalysisRequirementModel.t :=
  AnalysisRequirementModel.mk
    (AnalysisRequirementModel.id r) (AnalysisRequirementModel.source_id r)
    llm_id (AnalysisRequirementModel.name r)
    (AnalysisRequirementModel.prompt r) (AnalysisRequirementModel.enabled r).

(** * Properties *)

(** ** Queries and keys *)

Lemma first_Some {A : Type} (p : A -> bool) (table : list A) (row : A) :
  first p table = Some row -> row ∈ table /\ p row = true.
Proof.
  unfold first. intros Hfind. apply find_some in Hfind as [Hin Hp].
  split; [by apply list_elem_of_In | done].
Qed.

Lemma first_None {A : Type} (p : A -> bool) (table : list A) :
  first p table = None <-> forall row, row ∈ table -> p row = false.
Proof.
  unfold first. split.
  - intros Hfind row Hin. apply list_elem_of_In in Hin.
    exact (find_none p table Hfind row Hin).
  - induction table as [|row rest IH]; [done|]. intros Hall. simpl.
    rewrite (Hall row) by left. apply IH. intros r Hr. apply Hall. by right.
Qed.

Lemma first_is_Some {A : Type} (p : A -> bool) (table : list A) (row : A) :
  row ∈ table -> p row = true -> exists found, first p table = Some found.
Proof.
  intros Hin Hp. destruct (first p table) as [found|] eqn:Hfirst; [eauto|].
  rewrite first_None in Hfirst. rewrite (Hfirst row Hin) in Hp. done.
Qed.

Lemma first_app_None {A : Type} (p : A -> bool) (table : list A) (row : A) :
  first p table = None -> first p (table ++ [row]) = first p [row].
Proof.
  unfold first. induction table as [|r rest IH]; [done|]. simpl.
  destruct (p r); [done | exact IH].
Qed.

Lemma first_update_first {A : Type} (p : A -> bool) (new old : A)
    (table : list A) :
  first p table = Some old -> p new = true ->
  first p (update_first p new table) = Some new.
Proof.
  unfold first. induction table as [|r rest IH]; [done|]. simpl.
  destruct (p r) eqn:Hr; simpl.
  - intros _ Hnew. by rewrite Hnew.
  - intros Hrest Hnew. rewrite Hr. by apply IH.
Qed.

Lemma sql_eq_true (column param : PyVal) :
  sql_eq column param = true <-> column = param.
Proof. unfold sql_eq. by rewrite bool_decide_eq_true. Qed.

Lemma sql_eq_false (column param : PyVal) :
  sql_eq column param = false <-> column <> param.
Proof. unfold sql_eq. by rewrite bool_decide_eq_false. Qed.

Lemma next_id_bound (keys : list PyVal) (n : Z) :
  PyInt n ∈ keys -> n < next_id keys.
Proof.
  unfold next_id. induction keys as [|k rest IH]; intros Hin.
  - by apply elem_of_nil in Hin.
  - apply elem_of_cons in Hin as [<- | Hin]; simpl; [lia|].
    specialize (IH Hin). lia.
Qed.

Lemma next_id_positive (keys : list PyVal) : 1 <= next_id keys.
Proof.
  unfold next_id. induction keys as [|k rest IH]; simpl; lia.
Qed.

Lemma next_id_fresh (keys : list PyVal) : PyInt (next_id keys) ∉ keys.
Proof. intros Hin. apply next_id_bound in Hin. lia. Qed.

Section RecordStoreFacts.

Context {rt : Runtime}.

(** Whether an instance has an attribute is a matter of its class. *)
Lemma content_hasattr_class (c c' : ContentModel.t) (name : string) :
  content_hasattr c name = content_hasattr c' name.
Proof.
  unfold content_hasattr, content_getattr, ContentModel.column.
  repeat (case String.eqb; [done|]). done.
Qed.

Lemma content_hasattr_false (c : ContentModel.t) (name : string) :
  content_hasattr c name = false -> content_getattr c name = None.
Proof. unfold content_hasattr. by destruct (content_getattr c name). Qed.

(** C10.  For an existing content row and an attribute name its class
    does not have, [get_content_attribute] returns [None] without raising
    while [set_content_attribute] raises [AttributeError] (and rolls
    back); for an identifier no row carries, both raise
    [ContentNotFoundError]. *)
Theorem content_attribute_unknown_or_missing
    (db : Database) (content_id : PyVal) (name : string)
    (new_value : PyVal) :
  (forall c, c ∈ content db -> ContentModel.id c = content_id ->
     content_hasattr c name = false ->
     get_content_attribute content_id name db = (Returned PyNone, db)
     /\ set_content_attribute content_id name new_value db
        = (Raised AttributeError, db))
  /\ ((forall c, c ∈ content db -> ContentModel.id c <> content_id) ->
      get_content_attribute content_id name db
      = (Raised ContentNotFoundError, db)
      /\ set_content_attribute content_id name new_value db
         = (Raised ContentNotFoundError, db)).
Proof.
  split.
  - intros c Hin Hid Hno.
    destruct (first_is_Some (content_by_id content_id) (content db) c)
      as [found Hfound]; [done | by apply sql_eq_true |].
    rewrite (content_hasattr_class c found) in Hno.
    unfold get_content_attribute, set_content_attribute, session_scope.
    rewrite Hfound, Hno, (content_hasattr_false _ _ Hno). done.
  - intros Hmissing.
    assert (first (content_by_id content_id) (content db) = None) as Hnone.
    { apply first_None. intros c Hin. apply sql_eq_false. by apply Hmissing. }
    unfold get_content_attribute, set_content_attribute, session_scope.
    by rewrite Hnone.
Qed.

End RecordStoreFacts.

Lemma filter_sublist {A : Type} (p : A -> bool) (l : list A) :
  sublist (List.filter p l) l.
Proof.
  induction l as [|x l IH]; simpl; [constructor|].
  destruct (p x); by constructor.
Qed.

Lemma elem_of_filter {A : Type} (p : A -> bool) (l : list A) (x : A) :
  x ∈ List.filter p l <-> x ∈ l /\ p x = true.
Proof. rewrite !list_elem_of_In. apply filter_In. Qed.

Lemma filter_filter {A : Type} (p q : A -> bool) (l : list A) :
  List.filter q (List.filter p l) = List.filter (fun x => p x && q x) l.
Proof.
  induction l as [|x l IH]; simpl; [done|].
  destruct (p x); simpl; [destruct (q x)|]; by rewrite ?IH.
Qed.

Lemma filter_nil {A : Type} (p : A -> bool) (l : list A) :
  (forall x, x ∈ l -> p x = false) -> List.filter p l = [].
Proof.
  induction l as [|x l IH]; simpl; [done|]. intros Hall.
  rewrite (Hall x) by left. apply IH. intros y Hy. apply Hall. by right.
Qed.

Lemma requirement_dict_keys (r : AnalysisRequirementModel.t) :
  dom (requirement_dict r)
  = ({[ "req_id"; "name"; "llm_id"; "prompt" ]} : gset string)
  /\ requirement_dict r !! "req_id" = Some (AnalysisRequirementModel.id r)
  /\ requirement_dict r !! "name" = Some (AnalysisRequirementModel.name r)
  /\ requirement_dict r !! "llm_id" = Some (AnalysisRequirementModel.llm_id r)
  /\ requirement_dict r !! "prompt" = Some (AnalysisRequirementModel.prompt r).
Proof.
  unfold requirement_dict. split; [|by simplify_map_eq].
  rewrite !dom_insert_L, dom_empty_L. set_solver.
Qed.

Section RequirementFacts.

Context {rt : Runtime}.

Lemma get_analysis_requirements_rows (db : Database) (source_id : PyVal) :
  get_analysis_requirements source_id db
  = (Returned (requirement_dict <$> enabled_requirements source_id db), db).
Proof.
  unfold get_analysis_requirements, session_scope, enabled_requirements.
  by rewrite filter_filter.
Qed.

(** C9.  [get_analysis_requirements] never raises and leaves the store as
    it is; it returns one dictionary, with exactly the keys [req_id],
    [name], [llm_id] and [prompt], for each requirement row of the source
    whose [enabled] is true, and for no other row.  For a source without
    requirement rows, and for a source identifier no source row carries,
    it returns the empty list, where [get_source_attribute] and
    [get_content_attribute] raise on a missing row. *)
Theorem get_analysis_requirements_enabled_only
    (db : Database) (source_id : PyVal) :
  (exists rows,
     get_analysis_requirements source_id db
     = (Returned (requirement_dict <$> rows), db)
     /\ sublist rows (analysis_requirement db)
     /\ (forall r, r ∈ rows <->
           r ∈ analysis_requirement db
           /\ AnalysisRequirementModel.source_id r = source_id
           /\ truthy (AnalysisRequirementModel.enabled r) = true)
     /\ (forall r, r ∈ rows ->
           dom (requirement_dict r)
           = ({[ "req_id"; "name"; "llm_id"; "prompt" ]} : gset string)
           /\ requirement_dict r !! "req_id"
              = Some (AnalysisRequirementModel.id r)
           /\ requirement_dict r !! "name"
              = Some (AnalysisRequirementModel.name r)
           /\ requirement_dict r !! "llm_id"
              = Some (AnalysisRequirementModel.llm_id r)
           /\ requirement_dict r !! "prompt"
              = Some (AnalysisRequirementModel.prompt r)))
  /\ ((forall r, r ∈ analysis_requirement db ->
         AnalysisRequirementModel.source_id r <> source_id) ->
      get_analysis_requirements source_id db = (Returned [], db))
  /\ ((forall s, s ∈ source db -> SourceModel.id s <> source_id) ->
      (forall r, r ∈ analysis_requirement db ->
         exists s, s ∈ source db
                   /\ SourceModel.id s = AnalysisRequirementModel.source_id r) ->
      get_analysis_requirements source_id db = (Returned [], db)
      /\ forall name,
           get_source_attribute source_id name db
           = (Raised ContentNotFoundError, db))
  /\ (forall content_id name,
        (forall c, c ∈ content db -> ContentModel.id c <> content_id) ->
        get_content_attribute content_id name db
        = (Raised ContentNotFoundError, db)).
Proof.
  assert ((forall r, r ∈ analysis_requirement db ->
             AnalysisRequirementModel.source_id r <> source_id) ->
          get_analysis_requirements source_id db = (Returned [], db))
    as Hnone.
  { intros Hall. rewrite get_analysis_requirements_rows.
    unfold enabled_requirements. rewrite filter_nil; [done|]. intros r Hr.
    apply andb_false_iff. left. apply sql_eq_false. by apply Hall. }
  split; [|split; [exact Hnone|split]].
  - eexists. split; [apply get_analysis_requirements_rows|].
    unfold enabled_requirements.
    split; [apply filter_sublist|]. split.
    + intros r. rewrite elem_of_filter, andb_true_iff, sql_eq_true. tauto.
    + intros r _. apply requirement_dict_keys.
  - intros Hsource Hforeign. split.
    + apply Hnone. intros r Hr Heq.
      destruct (Hforeign r Hr) as (s & Hs & Hid).
      apply (Hsource s Hs). congruence.
    + intros name. unfold get_source_attribute, session_scope.
      assert (first (source_by_id source_id) (source db) = None) as ->; [|done].
      apply first_None. intros s Hs. apply sql_eq_false. by apply Hsource.
  - intros content_id name Hmissing.
    unfold get_content_attribute, session_scope.
    assert (first (content_by_id content_id) (content db) = None) as ->; [|done].
    apply first_None. intros c Hc. apply sql_eq_false. by apply Hmissing.
Qed.

End RequirementFacts.

Section CollectorFacts.

Context {rt : Runtime}.

Lemma source_by_uid_true (self : Collector) (uid : string) (s : SourceModel.t) :
  source_by_uid self uid s = true
  <-> SourceModel.uid s = PyStr uid
      /\ SourceModel.collector_id s = collector_id self.
Proof.
  unfold source_by_uid. by rewrite andb_true_iff, !sql_eq_true.
Qed.

(** C5.  When a source row with this collector and uid exists,
    [add_source] adds nothing and returns [None], its sign that the source
    exists.  When none exists, it appends one enabled row under a key no
    row has yet and returns it; calling it again for the same pair then
    adds nothing and returns [None]. *)
Theorem add_source_no_duplicate
    (self : Collector) (uid friendly_name : string) (db : Database) :
  (forall s, s ∈ source db -> SourceModel.uid s = PyStr uid ->
     SourceModel.collector_id s = collector_id self ->
     add_source self uid friendly_name db = (Returned None, db))
  /\ ((forall s, s ∈ source db ->
         ~ (SourceModel.uid s = PyStr uid
            /\ SourceModel.collector_id s = collector_id self)) ->
      exists new_source,
        add_source self uid friendly_name db
        = (Returned (Some new_source),
           set_source db (source db ++ [new_source]))
        /\ SourceModel.uid new_source = PyStr uid
        /\ SourceModel.collector_id new_source = collector_id self
        /\ SourceModel.friendly_name new_source = PyStr friendly_name
        /\ SourceModel.enabled new_source = PyBool true
        /\ (SourceModel.id new_source ∉ (SourceModel.id <$> source db))
        /\ forall again,
             add_source self uid again
                        (set_source db (source db ++ [new_source]))
             = (Returned None,
                set_source db (source db ++ [new_source]))).
Proof.
  split.
  - intros s Hin Huid Hcol.
    destruct (first_is_Some (source_by_uid self uid) (source db) s)
      as [found Hfound]; [done | by apply source_by_uid_true |].
    unfold add_source, session_scope. by rewrite Hfound.
  - intros Hnew.
    assert (first (source_by_uid self uid) (source db) = None) as Hnone.
    { apply first_None. intros s Hs.
      destruct (source_by_uid self uid s) eqn:Hp; [|done].
      apply source_by_uid_true in Hp. by destruct (Hnew s Hs). }
    eexists. unfold add_source at 1, session_scope. rewrite Hnone.
    split; [reflexivity|]. simpl. repeat (split; [done|]).
    split; [apply next_id_fresh|].
    intros again. unfold add_source, session_scope. simpl.
    rewrite (first_app_None _ _ _ Hnone). simpl.
    unfold source_by_uid, sql_eq. simpl.
    by rewrite !bool_decide_eq_true_2.
Qed.

End CollectorFacts.

(** ** Steps of a task *)


Lemma bind_eq {A B : Type} (m : M A) (f : A -> M B) (w : World) :
  (m ≫= f) w
  = match m w with
    | (Returned a, w1) => f a w1
    | (Raised e, w1) => (Raised e, w1)
    end.
Proof. reflexivity. Qed.

Lemma world_eta (w : World) :
  mkWorld (database w) (translation_registry w) (analysis_registry w)
          (broker w) = w.
Proof. by destruct w. Qed.



Section StepFacts.

Context {rt : Runtime}.

Lemma get_content_attribute_database (content_id : PyVal) (name : string)
    (db : Database) :
  snd (get_content_attribute content_id name db) = db.
Proof.
  unfold get_content_attribute, session_scope.
  by destruct (first _ _).
Qed.

Lemma get_source_attribute_database (source_id : PyVal) (name : string)
    (db : Database) :
  snd (get_source_attribute source_id name db) = db.
Proof.
  unfold get_source_attribute, session_scope.
  by destruct (first _ _).
Qed.

Lemma on_database_read {A : Type}
    (call : Database -> Outcome A * Database) (w : World) :
  snd (call (database w)) = database w ->
  on_database call w = (fst (call (database w)), w).
Proof.
  unfold on_database. destruct (call (database w)) as [o db]. simpl.
  intros ->. by rewrite world_eta.
Qed.

Lemma on_get_content_attribute (content_id : PyVal) (name : string)
    (w : World) :
  on_database (get_content_attribute content_id name) w
  = (fst (get_content_attribute content_id name (database w)), w).
Proof. apply on_database_read, get_content_attribute_database. Qed.

Lemma on_get_source_attribute (source_id : PyVal) (name : string)
    (w : World) :
  on_database (get_source_attribute source_id name) w
  = (fst (get_source_attribute source_id name (database w)), w).
Proof. apply on_database_read, get_source_attribute_database. Qed.

Lemma on_get_analysis_requirements (source_id : PyVal) (w : World) :
  on_database (get_analysis_requirements source_id) w
  = (fst (get_analysis_requirements source_id (database w)), w).
Proof. by apply on_database_read. Qed.

Lemma connect_db_world (w : World) : snd (connect_db w) = w.
Proof.
  unfold connect_db. destruct mysql_params, database_connect; done.
Qed.


Lemma disconnect_world (w : World) : snd (disconnect w) = w.
Proof. unfold disconnect. by destruct engine_disconnect. Qed.

Lemma or_disconnect_same_store (load : M unit) (w : World) :
  same_store w (snd (load w)) -> same_store w (snd (or_disconnect load w)).
Proof.
  unfold or_disconnect. destruct (load w) as [[u|e] w1]; simpl; [done|].
  intros Hsame. rewrite bind_eq.
  pose proof (disconnect_world w1) as Hw1.
  destruct (disconnect w1) as [[u|e'] w2]; simpl in *; by subst.
Qed.

Lemma load_translation_services_same_store (w : World) :
  same_store w (snd (load_translation_services w)).
Proof.
  unfold load_translation_services.
  destruct translation_modules as [registrations [e|]]; by split.
Qed.

Lemma load_analysis_services_same_store (w : World) :
  same_store w (snd (load_analysis_services w)).
Proof.
  unfold load_analysis_services.
  destruct analysis_modules as [registrations [e|]]; by split.
Qed.


End StepFacts.

(** ** The translation task *)

Lemma set_column_translated_text (c : ContentModel.t) (v : PyVal) :
  ContentModel.set_column c "translated_text" v
  = Some (with_translated_text c v).
Proof. by destruct c. Qed.

Lemma with_translated_text_other (c : ContentModel.t) (v : PyVal)
    (name : string) :
  name <> "translated_text" ->
  ContentModel.column (with_translated_text c v) name
  = ContentModel.column c name.
Proof.
  intros Hname. unfold ContentModel.column, with_translated_text. simpl.
  destruct (String.eqb_spec name "translated_text") as [|_]; [done|].
  repeat (case String.eqb; [done|]). done.
Qed.

Section TranslateFacts.

Context {rt : Runtime}.

Lemma set_translated_text (content_id v : PyVal) (db : Database)
    (c : ContentModel.t) :
  first (content_by_id content_id) (content db) = Some c ->
  set_content_attribute content_id "translated_text" v db
  = (Returned tt,
     set_content db
       (update_first (content_by_id content_id)
                     (with_translated_text c v) (content db))).
Proof.
  intros Hfirst.
  unfold set_content_attribute, session_scope. rewrite Hfirst.
  unfold content_hasattr, content_getattr, content_setattr.
  by rewrite set_column_translated_text.
Qed.

Lemma get_content_attribute_Returned (content_id v : PyVal) (name : string)
    (db : Database) :
  fst (get_content_attribute content_id name db) = Returned v ->
  exists c, first (content_by_id content_id) (content db) = Some c
            /\ v = default PyNone (content_getattr c name).
Proof.
  unfold get_content_attribute, session_scope.
  destruct (first _ _) as [c|]; simpl; [|done]. intros [= <-]. eauto.
Qed.


(** What has happened when the task returns [True]. *)
Lemma translate_content_True (content_id : PyVal) (w w' : World) :
  translate_content content_id w = (Returned (PyBool true), w') ->
  exists (c : ContentModel.t) (service : TranslationService)
         (text : PyVal),
    first (content_by_id content_id) (content (database w)) = Some c
    /\ get_service "gpt3.5" (translation_registry w') = Some service
    /\ translate service (ContentModel.original_text c) = Returned text
    /\ truthy text = true
    /\ database w'
       = set_content (database w)
           (update_first (content_by_id content_id)
                         (with_translated_text c text)
                         (content (database w)))
    /\ broker w' = broker w ++ [mkTask "analyse_content" [content_id]
                                       "analysis"].
Proof.
  unfold translate_content. rewrite bind_eq.
  pose proof (connect_db_world w) as H1.
  destruct (connect_db w) as [[u|e] w1]; simpl in H1; subst w1; [|done].
  rewrite bind_eq, on_get_content_attribute.
  destruct (fst (get_content_attribute _ _ _)) as [original_text|e]
    eqn:Hget; [|done].
  apply get_content_attribute_Returned in Hget as (c & Hc & ->).
  rewrite bind_eq. unfold of_outcome at 1.
  destruct (slice_prefix _) as [u1|e]; [|done].
  rewrite bind_eq.
  pose proof (or_disconnect_same_store _ _
                (load_translation_services_same_store w)) as [Hdb Hbroker].
  destruct (or_disconnect load_translation_services w) as [[u2|e] w2];
    simpl in Hdb, Hbroker; [|done].
  rewrite bind_eq. unfold translation_service at 1.
  destruct (get_service "gpt3.5" (translation_registry w2)) as [service|]
    eqn:Hservice; [|done].
  rewrite bind_eq. unfold of_outcome at 1.
  destruct (translate service _) as [text|e] eqn:Htranslate; [|done].
  destruct (truthy text) eqn:Htruthy; [|done].
  rewrite bind_eq. unfold of_outcome at 1.
  destruct (slice_prefix text) as [u3|e]; [|done].
  rewrite bind_eq. unfold on_database at 1.
  rewrite <- Hdb in Hc. rewrite (set_translated_text _ text _ c Hc).
  rewrite bind_eq. simpl. intros [= <-]. simpl.
  rewrite Hdb, Hbroker in *.
  by exists c, service, text.
Qed.

(** C1, as the code has it.  When the task returns [True], the provider
    registered as 'gpt3.5' returned a text for the row's original text,
    and one transactional update has stored that text in
    [translated_text], which is not null afterwards.  Every other column of
    the row, the [translated] flag among them, is as it was. *)
Theorem translate_content_stores_translated_text (content_id : PyVal)
    (w w' : World) :
  translate_content content_id w = (Returned (PyBool true), w') ->
  exists (c c' : ContentModel.t) (service : TranslationService)
         (text : PyVal),
    first (content_by_id content_id) (content (database w)) = Some c
    /\ get_service "gpt3.5" (translation_registry w') = Some service
    /\ translate service (ContentModel.original_text c) = Returned text
    /\ database w'
       = set_content (database w)
           (update_first (content_by_id content_id) c'
                         (content (database w)))
    /\ first (content_by_id content_id) (content (database w')) = Some c'
    /\ ContentModel.translated_text c' = text
    /\ text <> PyNone
    /\ (forall name, name <> "translated_text" ->
          ContentModel.column c' name = ContentModel.column c name)
    /\ ContentModel.translated c' = ContentModel.translated c.
Proof.
  intros Hrun.
  apply translate_content_True in Hrun
    as (c & service & text & Hc & Hservice & Htext & Htruthy & Hdb & _).
  exists c, (with_translated_text c text), service, text.
  repeat (split; [done|]). split; [|split; [done|split; [|split; [|done]]]].
  - rewrite Hdb. simpl. apply (first_update_first _ _ c); [done|].
    apply first_Some in Hc as [_ Hid]. exact Hid.
  - intros ->. done.
  - intros name. apply with_translated_text_other.
Qed.

End TranslateFacts.

(** ** The analysis task *)

Lemma set_analysis_result_nil (db : Database) :
  set_analysis_result db (analysis_result db ++ []) = db.
Proof. destruct db. unfold set_analysis_result. simpl. by rewrite app_nil_r. Qed.

Lemma results_follow_requirements (new : list AnalysisResultModel.t)
    (rows : list AnalysisRequirementModel.t) :
  Forall2 (fun res requirement =>
             requirement !! "req_id" = Some (AnalysisResultModel.req_id res))
          new (requirement_dict <$> rows) ->
  AnalysisResultModel.req_id <$> new = AnalysisRequirementModel.id <$> rows.
Proof.
  rewrite Forall2_fmap_r. induction 1 as [|res row new rows Hreq _ IH]; [done|].
  destruct (requirement_dict_keys row) as (_ & Hid & _).
  unfold compose in Hreq. rewrite Hid in Hreq. injection Hreq as Hreq.
  rewrite !fmap_cons. congruence.
Qed.

Section AnalyseFacts.

Context {rt : Runtime}.

Lemma results_added_nil (w : World) : results_added w [] = w.
Proof.
  unfold results_added. by rewrite set_analysis_result_nil, world_eta.
Qed.

Lemma results_added_app (w : World) (new more : list AnalysisResultModel.t) :
  results_added (results_added w new) more = results_added w (new ++ more).
Proof.
  unfold results_added, set_analysis_result. simpl. by rewrite app_assoc.
Qed.

(** One turn of the loop either leaves the loop (or raises) with the world
    as it was, never with [True], or goes on with one result row more, for
    this content and the requirement's [req_id]. *)
Lemma analyse_requirement_run (content_id text : PyVal)
    (requirement : gmap string PyVal) (w w' : World)
    (o : Outcome (option PyVal)) :
  analyse_requirement content_id text requirement w = (o, w') ->
  (w' = w /\ o <> Returned None
   /\ forall v, o = Returned (Some v) -> v = PyBool false)
  \/ (o = Returned None
      /\ exists res,
           requirement !! "req_id" = Some (AnalysisResultModel.req_id res)
           /\ AnalysisResultModel.content_id res = content_id
           /\ w' = results_added w [res]).
Proof.
  unfold analyse_requirement, subscript, analysis_service, on_database,
    of_outcome, raise, mbind, M_bind, mret, M_ret.
  destruct (requirement !! "name") as [name|];
    [|intros [= <- <-]; left; done].
  destruct (requirement !! "llm_id") as [llm_id|];
    [|intros [= <- <-]; left; done].
  destruct (get_service "gpt3.5" (analysis_registry w)) as [service|];
    [|intros [= <- <-]; left; repeat split; [done | by intros v [= <-]]].
  destruct (requirement !! "prompt") as [prompt|];
    [|intros [= <- <-]; left; done].
  destruct (analyse service prompt text) as [analysis|e];
    [|intros [= <- <-]; left; done].
  destruct (slice_prefix analysis) as [u|e];
    [|intros [= <- <-]; left; done].
  destruct (requirement !! "req_id") as [req_id|];
    [|intros [= <- <-]; left; done].
  simpl. intros [= <- <-]. right. split; [done|].
  eexists. split; [|split]; [| |reflexivity]; done.
Qed.

Lemma analyse_requirements_run (content_id text : PyVal)
    (requirements : list (gmap string PyVal)) (w w' : World)
    (o : Outcome PyVal) :
  analyse_requirements content_id text requirements w = (o, w') ->
  exists new,
    w' = results_added w new
    /\ Forall (fun res => AnalysisResultModel.content_id res = content_id)
              new
    /\ o <> Returned PyNone
    /\ (o = Returned (PyBool true) ->
        Forall2 (fun res requirement =>
                   requirement !! "req_id"
                   = Some (AnalysisResultModel.req_id res))
                new requirements).
Proof.
  revert w. induction requirements as [|requirement rest IH]; intros w.
  - simpl. intros [= <- <-]. exists []. rewrite results_added_nil.
    repeat split; [constructor | done | constructor].
  - simpl. rewrite bind_eq.
    destruct (analyse_requirement content_id text requirement w)
      as [returned w1] eqn:Hstep.
    apply analyse_requirement_run in Hstep
      as [(-> & Hgo & Hfalse) | (-> & res & Hreq & Hcontent & ->)].
    + destruct returned as [[v|]|e]; [| done |].
      * intros [= <- <-]. exists []. rewrite results_added_nil.
        rewrite (Hfalse v eq_refl). repeat split; [constructor | done | done].
      * intros [= <- <-]. exists []. rewrite results_added_nil.
        repeat split; [constructor | done | done].
    + intros Hrest. apply IH in Hrest as (new & -> & Hall & Hnone & Htrue).
      exists (res :: new). rewrite results_added_app.
      repeat split; [by constructor | done |].
      intros Ho. constructor; [done | by apply Htrue].
Qed.


Lemma connect_db_or_attribute_error_world (w : World) :
  snd (connect_db_or_attribute_error w) = w.
Proof.
  unfold connect_db_or_attribute_error.
  pose proof (connect_db_world w) as Hw.
  by destruct (connect_db w) as [[u|e] w1].
Qed.

(** What an invocation of the analysis task has done, whatever its
    outcome: it has appended result rows for this content, and nothing
    else; none when it returns [None]; one for each enabled requirement
    of the content's source, in order, when it returns [True]. *)
Lemma analyse_content_run (content_id : PyVal) (w w' : World)
    (o : Outcome PyVal) :
  analyse_content content_id w = (o, w') ->
  exists new,
    database w'
    = set_analysis_result (database w)
                          (analysis_result (database w) ++ new)
    /\ broker w' = broker w
    /\ Forall (fun res => AnalysisResultModel.content_id res = content_id)
              new
    /\ (o = Returned PyNone -> new = [])
    /\ (o = Returned (PyBool true) ->
        exists c,
          first (content_by_id content_id) (content (database w)) = Some c
          /\ AnalysisResultModel.req_id <$> new
             = AnalysisRequirementModel.id <$>
                 enabled_requirements (ContentModel.source_id c)
                                      (database w)).
Proof.
  assert (forall w1 o1, same_store w w1 ->
            o1 <> Returned (PyBool true) -> o1 <> Returned PyNone ->
            exists new,
              database w1
              = set_analysis_result (database w)
                                    (analysis_result (database w) ++ new)
              /\ broker w1 = broker w
              /\ Forall (fun res =>
                           AnalysisResultModel.content_id res = content_id)
                        new
              /\ (o1 = Returned PyNone -> new = [])
              /\ (o1 = Returned (PyBool true) ->
                  exists c,
                    first (content_by_id content_id) (content (database w))
                    = Some c
                    /\ AnalysisResultModel.req_id <$> new
                       = AnalysisRequirementModel.id <$>
                           enabled_requirements (ContentModel.source_id c)
                                                (database w)))
    as Hstop.
  { intros w1 o1 [Hdb Hbroker] Htrue Hnone. exists [].
    rewrite set_analysis_result_nil.
    do 2 (split; [done|]). split; [constructor|]. split; done. }
  unfold analyse_content. rewrite bind_eq.
  pose proof (connect_db_or_attribute_error_world w) as H1.
  destruct (connect_db_or_attribute_error w) as [[u|e] w1]; simpl in H1;
    subst w1; [|intros [= <- <-]; by apply Hstop].
  rewrite bind_eq.
  pose proof (or_disconnect_same_store _ _
                (load_analysis_services_same_store w)) as Hsame.
  destruct (or_disconnect load_analysis_services w) as [[u2|e] w2];
    simpl in Hsame; [|intros [= <- <-]; by apply Hstop].
  rewrite bind_eq, on_get_content_attribute.
  destruct (fst (get_content_attribute _ "translated_text" _))
    as [translated_text|e]; [|intros [= <- <-]; by apply Hstop].
  rewrite bind_eq, on_get_content_attribute.
  destruct (fst (get_content_attribute _ "source_id" _))
    as [source_id|e] eqn:Hsource; [|intros [= <- <-]; by apply Hstop].
  apply get_content_attribute_Returned in Hsource as (c & Hc & ->).
  change (default PyNone (content_getattr c "source_id"))
    with (ContentModel.source_id c).
  rewrite bind_eq, on_get_source_attribute.
  destruct (fst (get_source_attribute _ _ _)) as [source_enabled|e];
    [|intros [= <- <-]; by apply Hstop].
  destruct Hsame as [Hdb Hbroker].
  destruct (truthy source_enabled); simpl.
  - rewrite bind_eq, on_get_analysis_requirements.
    rewrite get_analysis_requirements_rows. simpl. intros Hloop.
    apply analyse_requirements_run in Hloop
      as (new & -> & Hall & Hnone & Htrue).
    exists new. simpl. rewrite Hdb, Hbroker.
    do 3 (split; [done|]). split.
    + intros ->. done.
    + intros ->. exists c. rewrite <- Hdb. split; [done|].
      by apply results_follow_requirements, Htrue.
  - intros [= <- <-]. exists []. rewrite set_analysis_result_nil.
    do 2 (split; [done|]). split; [constructor|]. split; done.
Qed.

(** C2, as the code has it.  An invocation of the analysis task, whatever
    its outcome, leaves every content row as it was: no column of it, the
    [analysed] flag among them, changes. *)
Theorem analyse_content_keeps_content_rows (content_id : PyVal)
    (w : World) :
  content (database (snd (analyse_content content_id w)))
  = content (database w).
Proof.
  destruct (analyse_content content_id w) as [o w'] eqn:Hrun.
  apply analyse_content_run in Hrun as (new & Hdb & _). simpl.
  by rewrite Hdb.
Qed.

(** C3.  When an invocation returns [True], it has appended to the result
    table one row for each enabled requirement of the content's source and
    nothing else: as many rows as there are such requirements, carrying
    their identifiers in order (so pairwise distinct ones, requirement
    identifiers being keys), and all carrying the content identifier. *)
Theorem analyse_content_one_result_per_requirement (content_id : PyVal)
    (w w' : World) (c : ContentModel.t) :
  analyse_content content_id w = (Returned (PyBool true), w') ->
  first (content_by_id content_id) (content (database w)) = Some c ->
  NoDup (AnalysisRequirementModel.id <$> analysis_requirement (database w)) ->
  exists new,
    analysis_result (database w') = analysis_result (database w) ++ new
    /\ length new
       = length (enabled_requirements (ContentModel.source_id c)
                                      (database w))
    /\ AnalysisResultModel.req_id <$> new
       = AnalysisRequirementModel.id <$>
           enabled_requirements (ContentModel.source_id c) (database w)
    /\ NoDup (AnalysisResultModel.req_id <$> new)
    /\ Forall (fun res => AnalysisResultModel.content_id res = content_id)
              new.
Proof.
  intros Hrun Hc Hkeys.
  apply analyse_content_run in Hrun as (new & Hdb & _ & Hall & _ & Htrue).
  destruct (Htrue eq_refl) as (c0 & Hc0 & Hids).
  rewrite Hc in Hc0. injection Hc0 as <-.
  exists new. split; [by rewrite Hdb|]. split; [|split; [done|split; [|done]]].
  - by rewrite <- (length_fmap AnalysisResultModel.req_id), Hids, length_fmap.
  - rewrite Hids. unfold enabled_requirements.
    eapply sublist_NoDup; [exact Hkeys|].
    apply fmap_sublist, filter_sublist.
Qed.

(** C6.  With the database reachable and the analysis modules loading,
    the task, run on a content row of a disabled source, returns [None]:
    it neither raises nor returns [False], it adds no result row and
    changes no other row, and it sends no task. *)
Theorem analyse_content_source_disabled (content_id : PyVal) (w : World)
    (c : ContentModel.t) (s : SourceModel.t) :
  mysql_params = true -> database_connect = true ->
  snd analysis_modules = None ->
  first (content_by_id content_id) (content (database w)) = Some c ->
  first (source_by_id (ContentModel.source_id c)) (source (database w))
  = Some s ->
  SourceModel.enabled s = PyBool false ->
  fst (analyse_content content_id w) = Returned PyNone
  /\ ~ failed (fst (analyse_content content_id w))
  /\ analysis_result (database (snd (analyse_content content_id w)))
     = analysis_result (database w)
  /\ database (snd (analyse_content content_id w)) = database w
  /\ broker (snd (analyse_content content_id w)) = broker w.
Proof.
  intros Hparams Hconnect Hload Hc Hs Henabled.
  assert (fst (analyse_content content_id w) = Returned PyNone) as Hnone.
  { unfold analyse_content, connect_db_or_attribute_error, connect_db,
      or_disconnect, load_analysis_services, on_database,
      get_content_attribute, get_source_attribute, session_scope,
      mbind, M_bind, mret, M_ret.
    rewrite Hparams, Hconnect.
    destruct analysis_modules as [registrations failure].
    simpl in Hload. subst failure. simpl.
    do 2 (rewrite Hc; simpl). rewrite Hs. simpl. by rewrite Henabled. }
  split; [done|]. split; [by rewrite Hnone|].
  destruct (analyse_content content_id w) as [o w'] eqn:Hrun.
  simpl in *. subst o.
  apply analyse_content_run in Hrun as (new & Hdb & Hbroker & _ & Hnew & _).
  rewrite (Hnew eq_refl), set_analysis_result_nil in Hdb.
  by rewrite Hdb.
Qed.

(** C8.  The provider a requirement is analysed with is the one registered
    as 'gpt3.5': the turn of the loop for a requirement and the turn for
    the same requirement with any other [llm_id] do the same.  Without a
    provider under 'gpt3.5' the task returns [False]; with one, it is that
    provider's [analyse] that is called with the requirement's prompt, and
    its string result that is stored. *)
Theorem analysis_provider_ignores_llm_id (content_id text : PyVal)
    (r : AnalysisRequirementModel.t) (llm_id : PyVal) (w : World) :
  analyse_requirement content_id text
                      (requirement_dict (with_llm_id r llm_id)) w
  = analyse_requirement content_id text (requirement_dict r) w
  /\ (get_service "gpt3.5" (analysis_registry w) = None ->
      analyse_requirement content_id text (requirement_dict r) w
      = (Returned (Some (PyBool false)), w))
  /\ (forall service,
        get_service "gpt3.5" (analysis_registry w) = Some service ->
        analyse_requirement content_id text (requirement_dict r) w
        = match analyse service (AnalysisRequirementModel.prompt r) text with
          | Raised e => (Raised e, w)
          | Returned (PyStr out) =>
              (Returned None,
               results_added w
                 [AnalysisResultModel.mk
                    (PyInt (next_id (AnalysisResultModel.id <$>
                                       analysis_result (database w))))
                    (AnalysisRequirementModel.id r) content_id utcnow
                    (PyStr out)])
          | Returned _ => (Raised TypeError, w)
          end).
Proof.
  destruct (requirement_dict_keys r) as (_ & Hid & Hname & Hllm & Hprompt).
  destruct (requirement_dict_keys (with_llm_id r llm_id))
    as (_ & Hid' & Hname' & Hllm' & Hprompt').
  unfold analyse_requirement, subscript, analysis_service.
  rewrite Hid, Hname, Hllm, Hprompt, Hid', Hname', Hllm', Hprompt'.
  split; [reflexivity|]. split.
  - intros Hnone. unfold mbind, M_bind, mret, M_ret. by rewrite Hnone.
  - intros service Hservice.
    unfold mbind, M_bind, mret, M_ret, of_outcome. rewrite Hservice.
    destruct (analyse service _ text) as [[| | |out| |]|e]; reflexivity.
Qed.

End AnalyseFacts.

(** ** Collection *)

Section CollectionFacts.

Context {rt : Runtime}.

Lemma add_content_Returned (self : Collector) (source_uid : string)
    (origin_time text metadata : PyVal) (db db' : Database) (n : Z) :
  add_content self source_uid origin_time text metadata db
  = (Returned (PyInt n), db') ->
  1 <= n
  /\ exists s,
       first (source_by_uid self source_uid) (source db) = Some s
       /\ db' = set_content db
                  (content db ++
                     [ContentModel.mk (PyInt n) (SourceModel.id s) utcnow
                        origin_time (PyBool false) (PyBool false)
                        text PyNone PyNone]).
Proof.
  unfold add_content, session_scope.
  destruct (first _ _) as [s|]; [|done]. intros [= <- <-].
  split; [apply next_id_positive | eauto].
Qed.

(** C4, as the code has it.  [add_content] stores the text it is given,
    an empty or null one too, whenever the source is known, and sends no
    task.  It is [process_message] that skips a message whose text is empty
    or null: no row is created and no task is sent.  For a message with
    text, when [add_content] returns the new content identifier,
    [process_message] has created the row with that text and sent one
    [translate_content] task for the identifier. *)
Theorem process_message_skips_empty_text (self : Collector)
    (event : NewMessage) (w : World) :
  ((event_message event = None
    \/ exists msg, event_message event = Some msg
                   /\ (message msg = None \/ message msg = Some "")) ->
   process_message self event w = (Returned tt, w))
  /\ (forall msg text uid n db',
        event_message event = Some msg -> message msg = Some text ->
        text <> "" -> sender_uid event = Some uid ->
        add_content self uid (date msg) (PyStr text) (PyDict [])
                    (database w)
        = (Returned (PyInt n), db') ->
        process_message self event w
        = (Returned tt,
           mkWorld db' (translation_registry w) (analysis_registry w)
                   (broker w ++ [mkTask "translate_content" [PyInt n]
                                        "translation"]))
        /\ exists c,
             content db' = content (database w) ++ [c]
             /\ ContentModel.id c = PyInt n
             /\ ContentModel.original_text c = PyStr text)
  /\ (forall uid origin_time text metadata s,
        first (source_by_uid self uid) (source (database w)) = Some s ->
        exists n c,
          add_content self uid origin_time text metadata (database w)
          = (Returned (PyInt n),
             set_content (database w) (content (database w) ++ [c]))
          /\ ContentModel.original_text c = text).
Proof.
  split; [|split].
  - unfold process_message.
    intros [-> | (msg & -> & [-> | ->])]; done.
  - intros msg text uid n db' Hmsg Htext Hnonempty Huid Hadd.
    unfold process_message. rewrite Hmsg, Htext, Huid.
    assert (Nat.eqb (String.length text) 0 = false) as ->.
    { destruct text; [done | reflexivity]. }
    simpl. rewrite bind_eq. unfold on_database. rewrite Hadd.
    apply add_content_Returned in Hadd as (Hpos & s & Hs & ->).
    assert (truthy (PyInt n) = true) as ->.
    { simpl. apply negb_true_iff, Z.eqb_neq. lia. }
    split; [reflexivity|]. eexists. split; [reflexivity|]. done.
  - intros uid origin_time text metadata s Hs.
    unfold add_content, session_scope. rewrite Hs.
    eexists _, _. split; [reflexivity|]. done.
Qed.

End CollectionFacts.

(** ** The properties on the sample data *)

(** C1 as stated fails.  On the sample store, translating content 101
    returns [True] and leaves its [translated] flag [False]: the flag is not
    set with the text. *)
Lemma translate_content_leaves_translated_flag :
  ~ (forall (rt : Runtime) (content_id : PyVal) (w w' : World)
            (c' : ContentModel.t),
       translate_content content_id w = (Returned (PyBool true), w') ->
       first (content_by_id content_id) (content (database w')) = Some c' ->
       ContentModel.translated_text c' <> PyNone
       /\ ContentModel.translated c' = PyBool true).
Proof.
  intros Hclaim.
  destruct (Hclaim sample_runtime (PyInt 101) sample_world
              (snd (@translate_content sample_runtime (PyInt 101)
                                       sample_world))
              (with_translated_text sample_content (PyStr "Hello world")))
    as [_ Hflag]; [by vm_compute | by vm_compute | discriminate Hflag].
Qed.

Lemma translate_content_stores_translated_text_witness :
  @translate_content sample_runtime (PyInt 101) sample_world
  = (Returned (PyBool true),
     snd (@translate_content sample_runtime (PyInt 101) sample_world))
  /\ exists (c c' : ContentModel.t) (service : TranslationService)
            (text : PyVal),
       first (content_by_id (PyInt 101)) (content sample_db) = Some c
       /\ translate service (ContentModel.original_text c) = Returned text
       /\ ContentModel.translated_text c' = text
       /\ text <> PyNone
       /\ ContentModel.translated c' = ContentModel.translated c.
Proof.
  assert (@translate_content sample_runtime (PyInt 101) sample_world
          = (Returned (PyBool true),
             snd (@translate_content sample_runtime (PyInt 101)
                                     sample_world))) as Hrun.
  { vm_compute. reflexivity. }
  split; [exact Hrun|].
  destruct (@translate_content_stores_translated_text sample_runtime
              (PyInt 101) sample_world _ Hrun)
    as (c & c' & service & text & Hc & _ & Htext & _ & _ & Hstored & Hnull
        & _ & Hflag).
  exists c, c', service, text. repeat split; assumption.
Defined.

(** C2 as stated fails.  On the translated sample store, analysing content
    101 returns [True] with its one requirement answered, and the [analysed]
    flag of the row is still [False]. *)
Lemma analyse_content_leaves_analysed_flag :
  ~ (forall (rt : Runtime) (content_id : PyVal) (w w' : World)
            (c' : ContentModel.t),
       analyse_content content_id w = (Returned (PyBool true), w') ->
       first (content_by_id content_id) (content (database w')) = Some c' ->
       ContentModel.analysed c' = PyBool true).
Proof.
  intros Hclaim.
  pose proof (Hclaim sample_runtime (PyInt 101) sample_translated_world
                (snd (@analyse_content sample_runtime (PyInt 101)
                                       sample_translated_world))
                (with_translated_text sample_content (PyStr "Hello world")))
    as Hflag.
  discriminate Hflag; by vm_compute.
Qed.

Lemma analyse_content_one_result_per_requirement_witness :
  exists new,
    analysis_result
      (database (snd (@analyse_content sample_runtime (PyInt 101)
                                       sample_translated_world)))
    = [] ++ new
    /\ length new = 1%nat
    /\ AnalysisResultModel.req_id <$> new = [PyInt 5]
    /\ NoDup (AnalysisResultModel.req_id <$> new)
    /\ Forall (fun res => AnalysisResultModel.content_id res = PyInt 101) new.
Proof.
  apply (@analyse_content_one_result_per_requirement sample_runtime
           (PyInt 101) sample_translated_world
           (snd (@analyse_content sample_runtime (PyInt 101)
                                  sample_translated_world))
           (with_translated_text sample_content (PyStr "Hello world"))).
  - vm_compute. reflexivity.
  - reflexivity.
  - apply NoDup_singleton.
Defined.

(** C4 as stated fails.  [add_content], given an empty text and a known
    source, creates a row. *)
Lemma add_content_stores_empty_text :
  ~ (forall (rt : Runtime) (self : Collector) (source_uid : string)
            (origin_time text metadata : PyVal) (db : Database),
       text = PyNone \/ text = PyStr "" ->
       content (snd (add_content self source_uid origin_time text metadata db))
       = content db).
Proof.
  intros Hclaim.
  specialize (Hclaim sample_runtime sample_collector "chan-42"
                     (PyInt 1699999990) (PyStr "") (PyDict []) sample_db
                     (or_intror eq_refl)).
  vm_compute in Hclaim. discriminate Hclaim.
Qed.

Lemma process_message_skips_empty_text_witness :
  @process_message sample_runtime sample_collector sample_empty_event
                   sample_world
  = (Returned tt, sample_world)
  /\ @process_message sample_runtime sample_collector sample_event
                      sample_world
     = (Returned tt,
        mkWorld
          (snd (@add_content sample_runtime sample_collector "chan-42"
                  (PyInt 1699999990) (PyStr "Bonjour le monde") (PyDict [])
                  sample_db))
          ∅ ∅ [mkTask "translate_content" [PyInt 102] "translation"]).
Proof.
  split.
  - apply (@process_message_skips_empty_text sample_runtime sample_collector
             sample_empty_event sample_world).
    right. eexists. split; [reflexivity|]. by right.
  - destruct (@process_message_skips_empty_text sample_runtime
                sample_collector sample_event sample_world)
      as (_ & Hsend & _).
    apply (Hsend (mkMessage (Some "Bonjour le monde") (PyInt 1699999990))
                 "Bonjour le monde" "chan-42" 102
                 (snd (@add_content sample_runtime sample_collector "chan-42"
                         (PyInt 1699999990) (PyStr "Bonjour le monde")
                         (PyDict []) sample_db)));
      [reflexivity | reflexivity | discriminate | reflexivity | reflexivity].
Defined.

Lemma add_source_no_duplicate_witness :
  add_source sample_collector "chan-42" "News Channel" sample_db
  = (Returned None, sample_db)
  /\ exists new_source,
       add_source sample_collector "chan-43" "Other Channel" sample_db
       = (Returned (Some new_source),
          set_source sample_db [sample_source; new_source])
       /\ SourceModel.uid new_source = PyStr "chan-43".
Proof.
  destruct (add_source_no_duplicate sample_collector "chan-42" "News Channel"
                                    sample_db) as [Hexisting _].
  destruct (add_source_no_duplicate sample_collector "chan-43"
                                    "Other Channel" sample_db) as [_ Hnew].
  split.
  - apply (Hexisting sample_source); [by left | reflexivity | reflexivity].
  - destruct Hnew as (new_source & Hadd & Huid & _).
    + intros s Hs [Huid _]. apply list_elem_of_singleton in Hs. subst s.
      discriminate Huid.
    + exists new_source. split; [exact Hadd | exact Huid].
Defined.

Lemma analyse_content_source_disabled_witness :
  fst (@analyse_content sample_runtime (PyInt 101) sample_disabled_world)
  = Returned PyNone
  /\ analysis_result
       (database (snd (@analyse_content sample_runtime (PyInt 101)
                                        sample_disabled_world)))
     = [].
Proof.
  destruct (@analyse_content_source_disabled sample_runtime (PyInt 101)
              sample_disabled_world
              (with_translated_text sample_content (PyStr "Hello world"))
              (SourceModel.mk (PyInt 7) (PyInt 1) (PyStr "chan-42")
                              (PyStr "News Channel") PyNone (PyBool false)
                              PyNone))
    as (Hnone & _ & Hresults & _); try reflexivity.
  split; [exact Hnone | exact Hresults].
Defined.

(** C7 as stated fails.  With a provider that returns no text, translating
    content 101 returns [False]: the provider has failed and the invocation
    has not, it returns as any task that succeeds does, and nothing is raised
    for the queue to retry. *)
Lemma translate_content_returns_False_without_text :
  ~ (forall (rt : Runtime) (content_id : PyVal) (w w' : World)
            (o : Outcome PyVal) (c : ContentModel.t)
            (service : TranslationService),
       translate_content content_id w = (o, w') ->
       first (content_by_id content_id) (content (database w)) = Some c ->
       get_service "gpt3.5" (translation_registry w') = Some service ->
       provider_fails (translate service (ContentModel.original_text c)) ->
       (exists e, o = Raised e) /\ database w' = database w).
Proof.
  intros Hclaim.
  destruct (Hclaim keyless_runtime (PyInt 101) sample_world
              (snd (@translate_content keyless_runtime (PyInt 101)
                                       sample_world))
              (Returned (PyBool false)) sample_content keyless_translate)
    as [[e Hraised] _];
    [by vm_compute | by vm_compute | by vm_compute | by vm_compute
    | discriminate Hraised].
Qed.

Lemma analysis_provider_ignores_llm_id_witness :
  @analyse_requirement sample_runtime (PyInt 101) (PyStr "Hello world")
    (requirement_dict (with_llm_id sample_requirement (PyInt 2)))
    sample_analysis_world
  = @analyse_requirement sample_runtime (PyInt 101) (PyStr "Hello world")
      (requirement_dict sample_requirement) sample_analysis_world
  /\ @analyse_requirement sample_runtime (PyInt 101) (PyStr "Hello world")
       (requirement_dict sample_requirement) sample_analysis_world
     = (Returned None,
        results_added sample_analysis_world
          [AnalysisResultModel.mk (PyInt 1) (PyInt 5) (PyInt 101)
                                  (PyInt 1700000000) (PyStr "neutral")]).
Proof.
  destruct (@analysis_provider_ignores_llm_id sample_runtime (PyInt 101)
              (PyStr "Hello world") sample_requirement (PyInt 2)
              sample_analysis_world) as (Hsame & _ & Hprovider).
  split; [exact Hsame|].
  apply (Hprovider stub_analyse). vm_compute. reflexivity.
Defined.

Lemma get_analysis_requirements_enabled_only_witness :
  get_analysis_requirements (PyInt 7) sample_db
  = (Returned [requirement_dict sample_requirement], sample_db)
  /\ get_analysis_requirements (PyInt 99) sample_db = (Returned [], sample_db)
  /\ forall name,
       @get_source_attribute sample_runtime (PyInt 99) name sample_db
       = (Raised ContentNotFoundError, sample_db).
Proof.
  destruct (get_analysis_requirements_enabled_only (rt := sample_runtime)
              sample_db (PyInt 99)) as (_ & _ & Hmissing & _).
  split; [reflexivity|]. apply Hmissing.
  - intros s Hs. apply list_elem_of_singleton in Hs. subst s. discriminate.
  - intros r Hr. apply list_elem_of_singleton in Hr. subst r.
    exists sample_source. split; [by left | reflexivity].
Defined.

Lemma content_attribute_unknown_or_missing_witness :
  (@get_content_attribute sample_runtime (PyInt 101) "sentiment" sample_db
   = (Returned PyNone, sample_db)
   /\ @set_content_attribute sample_runtime (PyInt 101) "sentiment"
        (PyStr "neutral") sample_db
      = (Raised AttributeError, sample_db))
  /\ (@get_content_attribute sample_runtime (PyInt 999) "sentiment" sample_db
      = (Raised ContentNotFoundError, sample_db)
      /\ @set_content_attribute sample_runtime (PyInt 999) "sentiment"
           (PyStr "neutral") sample_db
         = (Raised ContentNotFoundError, sample_db)).
Proof.
  destruct (@content_attribute_unknown_or_missing sample_runtime sample_db
              (PyInt 101) "sentiment" (PyStr "neutral")) as [Hunknown _].
  destruct (@content_attribute_unknown_or_missing sample_runtime sample_db
              (PyInt 999) "sentiment" (PyStr "neutral")) as [_ Hmissing].
  split.
  - apply (Hunknown sample_content); [by left | reflexivity | reflexivity].
  - apply Hmissing. intros c Hc. apply list_elem_of_singleton in Hc.
    subst c. discriminate.
Defined.

(** * Further properties *)

(** ** The registries *)

(** X1.  A provider registered under an identifier is the one [get_service]
    returns for it; the other identifiers resolve as before; a second
    registration under the same identifier replaces the first; and an
    identifier nobody registered resolves to [None], not to an error. *)
Theorem register_then_get_service {S : Type} (uid uid' : string)
    (service_cls earlier_cls : S) (registry : gmap string S) :
  get_service uid' (register uid service_cls registry)
  = (if decide (uid = uid') then Some service_cls
     else get_service uid' registry)
  /\ register uid service_cls (register uid earlier_cls registry)
     = register uid service_cls registry
  /\ get_service uid (∅ : gmap string S) = None.
Proof.
  unfold get_service, register. split; [apply lookup_insert|].
  split; [apply insert_insert_eq | apply lookup_empty].
Qed.

Lemma load_modules_snoc {S : Type} (registrations : list (string * S))
    (uid : string) (cls : S) (registry : gmap string S) :
  load_modules (registrations ++ [(uid, cls)]) registry
  = register uid cls (load_modules registrations registry).
Proof. unfold load_modules. by rewrite foldl_app. Qed.

Lemma load_modules_union {S : Type} (registrations : list (string * S))
    (registry : gmap string S) :
  load_modules registrations registry
  = list_to_map (reverse registrations) ∪ registry.
Proof.
  induction registrations as [|[uid cls] registrations IH] using rev_ind.
  - unfold load_modules. simpl. by rewrite (left_id_L ∅ (∪)).
  - rewrite load_modules_snoc, IH, reverse_app. simpl.
    unfold register. by rewrite insert_union_l.
Qed.

Lemma load_modules_idempotent {S : Type} (registrations : list (string * S))
    (registry : gmap string S) :
  load_modules registrations (load_modules registrations registry)
  = load_modules registrations registry.
Proof.
  rewrite !load_modules_union.
  by rewrite (assoc_L (∪)), (idemp_L (∪)).
Qed.

Lemma load_modules_lookup {S : Type} (registrations : list (string * S))
    (registry : gmap string S) (uid : string) (cls : S) :
  NoDup (fst <$> registrations) -> (uid, cls) ∈ registrations ->
  get_service uid (load_modules registrations registry) = Some cls.
Proof.
  intros Hnodup Hin. unfold get_service. rewrite load_modules_union.
  apply lookup_union_Some_l, elem_of_list_to_map.
  - rewrite fmap_reverse. by rewrite reverse_Permutation.
  - by apply elem_of_reverse.
Qed.

Lemma load_modules_other {S : Type} (registrations : list (string * S))
    (registry : gmap string S) (uid : string) :
  uid ∉ (fst <$> registrations) ->
  get_service uid (load_modules registrations registry)
  = get_service uid registry.
Proof.
  intros Hnot. unfold get_service. rewrite load_modules_union.
  apply lookup_union_r, not_elem_of_list_to_map.
  rewrite fmap_reverse. by rewrite elem_of_reverse.
Qed.

Section LoaderFacts.

Context {rt : Runtime}.

Lemma load_translation_services_eq (w : World) :
  load_translation_services w
  = (match snd translation_modules with
     | Some e => Raised e
     | None => Returned tt
     end,
     mkWorld (database w)
             (load_modules (fst translation_modules) (translation_registry w))
             (analysis_registry w) (broker w)).
Proof.
  unfold load_translation_services.
  by destruct translation_modules as [registrations [e|]].
Qed.

Lemma load_translation_services_registry (w : World) :
  translation_registry (snd (load_translation_services w))
  = load_modules (fst translation_modules) (translation_registry w).
Proof. by rewrite load_translation_services_eq. Qed.


(** X2.  Loading the translation modules a second time changes nothing and
    ends as the first loading did.  After a loading, a module's identifier
    resolves to the provider the module registered (identifiers being
    registered once), and an identifier no module registers resolves as
    before. *)
Theorem load_translation_services_again (w : World) :
  load_translation_services (snd (load_translation_services w))
  = load_translation_services w
  /\ (forall uid cls,
        NoDup (fst <$> fst translation_modules) ->
        (uid, cls) ∈ fst translation_modules ->
        get_service uid
          (translation_registry (snd (load_translation_services w)))
        = Some cls)
  /\ (forall uid,
        uid ∉ (fst <$> fst translation_modules) ->
        get_service uid
          (translation_registry (snd (load_translation_services w)))
        = get_service uid (translation_registry w)).
Proof.
  split; [|split].
  - rewrite !load_translation_services_eq. simpl.
    by rewrite load_modules_idempotent.
  - intros uid cls Hnodup Hin. rewrite load_translation_services_registry.
    by apply load_modules_lookup.
  - intros uid Hnot. rewrite load_translation_services_registry.
    by apply load_modules_other.
Qed.

End LoaderFacts.

(** ** Round trips through the record store *)

Lemma set_column_column (c : ContentModel.t) (name : string) (v old : PyVal) :
  ContentModel.column c name = Some old ->
  exists c',
    ContentModel.set_column c name v = Some c'
    /\ ContentModel.column c' name = Some v
    /\ forall other, other <> name ->
         ContentModel.column c' other = ContentModel.column c other.
Proof.
  unfold ContentModel.column, ContentModel.set_column. destruct c.
  repeat
    match goal with
    | |- context [String.eqb name ?literal] =>
        destruct (String.eqb_spec name literal) as [-> | ?];
        [ intros _; eexists; split; [reflexivity|]; split; [reflexivity|];
          intros other Hother;
          repeat
            match goal with
            | |- context [String.eqb other ?l] =>
                destruct (String.eqb_spec other l) as [-> | ?];
                [done || reflexivity |]
            end;
          reflexivity
        | ]
    end.
  done.
Qed.

Lemma first_update_first_other {A : Type} (p q : A -> bool) (new : A)
    (table : list A) :
  (forall row, p row = true -> q row = false) -> q new = false ->
  first q (update_first p new table) = first q table.
Proof.
  intros Hdisjoint Hnew. unfold first.
  induction table as [|row rest IH]; [done|]. simpl.
  destruct (p row) eqn:Hp; simpl.
  - by rewrite Hnew, (Hdisjoint row Hp).
  - by rewrite IH.
Qed.

Section RoundTripFacts.

Context {rt : Runtime}.

Lemma content_column_takes_column (c : ContentModel.t) (name : string)
    (v : PyVal) :
  content_column_takes name v = true ->
  name <> "id" /\ exists old, ContentModel.column c name = Some old.
Proof.
  unfold content_column_takes, ContentModel.column.
  repeat
    match goal with
    | |- context [String.eqb name ?literal] =>
        destruct (String.eqb_spec name literal) as [-> | ?];
        [simpl; intros _; split; [discriminate | eauto] |]
    end.
  done.
Qed.

(** X3.  Assigning to a [Text] column of an existing content row a string or
    null, or to a [Boolean] column a boolean or null, succeeds, and reading
    the column back gives the value assigned.  The other columns of the row
    read as before, and so does every column of a content row with another
    identifier. *)
Theorem set_then_get_content_attribute (db : Database)
    (content_id new_value : PyVal) (name : string) (c : ContentModel.t) :
  first (content_by_id content_id) (content db) = Some c ->
  content_column_takes name new_value = true ->
  exists db',
    set_content_attribute content_id name new_value db = (Returned tt, db')
    /\ get_content_attribute content_id name db' = (Returned new_value, db')
    /\ (forall other, other <> name ->
          fst (get_content_attribute content_id other db')
          = fst (get_content_attribute content_id other db))
    /\ (forall other_id other, other_id <> content_id ->
          fst (get_content_attribute other_id other db')
          = fst (get_content_attribute other_id other db)).
Proof.
  intros Hc Htakes.
  destruct (content_column_takes_column c name new_value Htakes)
    as (Hname & old & Hcolumn).
  destruct (set_column_column c name new_value old Hcolumn)
    as (c' & Hset & Hget & Hframe).
  pose proof (first_Some _ _ _ Hc) as [_ Hid].
  assert (content_by_id content_id c' = true) as Hid'.
  { unfold content_by_id in *.
    assert (ContentModel.column c' "id" = ContentModel.column c "id") as Hsame
      by (apply Hframe; congruence).
    injection Hsame as ->. exact Hid. }
  eexists. split; [|split; [|split]].
  - unfold set_content_attribute, session_scope. rewrite Hc.
    unfold content_hasattr, content_getattr, content_setattr.
    rewrite Hcolumn, Hset. reflexivity.
  - unfold get_content_attribute, session_scope. simpl.
    rewrite (first_update_first _ _ c _ Hc Hid').
    unfold content_getattr. by rewrite Hget.
  - intros other Hother.
    unfold get_content_attribute, session_scope. simpl.
    rewrite (first_update_first _ _ c _ Hc Hid'), Hc.
    unfold content_getattr. by rewrite (Hframe other Hother).
  - intros other_id other Hother.
    unfold get_content_attribute, session_scope. simpl.
    rewrite first_update_first_other;
      [destruct (first (content_by_id other_id) (content db)); reflexivity
      | |].
    + intros row Hrow. apply sql_eq_true in Hrow. apply sql_eq_false.
      congruence.
    + apply sql_eq_true in Hid'. apply sql_eq_false. congruence.
Qed.

End RoundTripFacts.

Lemma first_app_Some {A : Type} (p : A -> bool) (table more : list A)
    (row : A) :
  first p table = Some row -> first p (table ++ more) = Some row.
Proof.
  unfold first. induction table as [|r rest IH]; [done|]. simpl.
  destruct (p r); [done | exact IH].
Qed.

Lemma first_fresh_content (n : Z) (c : ContentModel.t)
    (rows : list ContentModel.t) :
  PyInt n ∉ (ContentModel.id <$> rows) -> ContentModel.id c = PyInt n ->
  first (content_by_id (PyInt n)) (rows ++ [c]) = Some c.
Proof.
  intros Hfresh Hid. rewrite first_app_None.
  - unfold first, content_by_id. simpl.
    by rewrite (proj2 (sql_eq_true _ _) Hid).
  - apply first_None. intros row Hrow. apply sql_eq_false. intros Heq.
    apply Hfresh. rewrite <- Heq. by apply list_elem_of_fmap_2.
Qed.

Section InsertFacts.

Context {rt : Runtime}.

(** X4.  For a known source, [add_content] appends one row under a key that
    is positive and that no content row had, and returns that key.  Read
    back under the key, the row holds the text and origin time given and the
    source's identifier; it is neither translated nor analysed and has no
    translated text. *)
Theorem add_content_then_get (self : Collector) (source_uid : string)
    (origin_time text metadata : PyVal) (db : Database) (s : SourceModel.t) :
  first (source_by_uid self source_uid) (source db) = Some s ->
  exists n c,
    add_content self source_uid origin_time text metadata db
    = (Returned (PyInt n), set_content db (content db ++ [c]))
    /\ 1 <= n
    /\ (PyInt n ∉ (ContentModel.id <$> content db))
    /\ (forall name,
          get_content_attribute (PyInt n) name
                                (set_content db (content db ++ [c]))
          = (Returned
               (default PyNone
                  (content_getattr
                     (ContentModel.mk (PyInt n) (SourceModel.id s) utcnow
                        origin_time (PyBool false) (PyBool false) text
                        PyNone PyNone)
                     name)),
             set_content db (content db ++ [c])))
    /\ fst (get_content_attribute (PyInt n) "original_text"
              (set_content db (content db ++ [c])))
       = Returned text
    /\ fst (get_content_attribute (PyInt n) "translated_text"
              (set_content db (content db ++ [c])))
       = Returned PyNone.
Proof.
  intros Hs. unfold add_content, session_scope. rewrite Hs.
  eexists _, _. split; [reflexivity|].
  split; [apply next_id_positive|]. split; [apply next_id_fresh|].
  assert (forall name,
            get_content_attribute
              (PyInt (next_id (ContentModel.id <$> content db))) name
              (set_content db
                 (content db ++
                    [ContentModel.mk
                       (PyInt (next_id (ContentModel.id <$> content db)))
                       (SourceModel.id s) utcnow origin_time (PyBool false)
                       (PyBool false) text PyNone PyNone]))
            = (Returned
                 (default PyNone
                    (content_getattr
                       (ContentModel.mk
                          (PyInt (next_id (ContentModel.id <$> content db)))
                          (SourceModel.id s) utcnow origin_time
                          (PyBool false) (PyBool false) text PyNone PyNone)
                       name)),
               set_content db
                 (content db ++
                    [ContentModel.mk
                       (PyInt (next_id (ContentModel.id <$> content db)))
                       (SourceModel.id s) utcnow origin_time (PyBool false)
                       (PyBool false) text PyNone PyNone]))) as Hget.
  { intros name. unfold get_content_attribute, session_scope. simpl.
    rewrite first_fresh_content; [done | apply next_id_fresh | done]. }
  split; [exact Hget|]. by rewrite !Hget.
Qed.

(** X5.  After [add_source], whether it added a row or found one,
    [get_source] finds a source row of this collector with this uid; a uid
    that resolved to a row before resolves to the same row afterwards. *)
Theorem add_source_then_get_source (self : Collector)
    (uid friendly_name : string) (db : Database) :
  (exists s,
     get_source self uid (snd (add_source self uid friendly_name db))
     = (Returned (Some s), snd (add_source self uid friendly_name db))
     /\ SourceModel.uid s = PyStr uid
     /\ SourceModel.collector_id s = collector_id self)
  /\ (forall other s,
        get_source self other db = (Returned (Some s), db) ->
        get_source self other (snd (add_source self uid friendly_name db))
        = (Returned (Some s), snd (add_source self uid friendly_name db))).
Proof.
  unfold get_source, add_source, session_scope.
  destruct (first (source_by_uid self uid) (source db)) as [s|] eqn:Hs;
    simpl.
  - split; [|done]. exists s. rewrite Hs.
    apply first_Some in Hs as [_ Hkey]. apply source_by_uid_true in Hkey.
    by destruct Hkey.
  - split.
    + eexists. rewrite (first_app_None _ _ _ Hs). unfold first. simpl.
      unfold source_by_uid, sql_eq. simpl.
      rewrite !bool_decide_eq_true_2 by done. simpl. done.
    + intros other s [= Hother].
      by rewrite (first_app_Some _ _ _ _ Hother).
Qed.

(** X6.  [add_source] keeps the source table free of duplicates: when no
    two rows share a key, and no two rows share an owner and a uid, the same
    holds afterwards. *)
Theorem add_source_keeps_keys_unique (self : Collector)
    (uid friendly_name : string) (db : Database) :
  NoDup (SourceModel.id <$> source db) ->
  NoDup (source_keys db) ->
  NoDup (SourceModel.id <$>
           source (snd (add_source self uid friendly_name db)))
  /\ NoDup (source_keys (snd (add_source self uid friendly_name db))).
Proof.
  intros Hids Hkeys. unfold add_source, session_scope, source_keys in *.
  destruct (first (source_by_uid self uid) (source db)) as [s|] eqn:Hs;
    simpl; [done|].
  rewrite !fmap_app. simpl. split.
  - apply NoDup_app. split; [done|]. split; [|apply NoDup_singleton].
    intros key Hkey Hnew. apply list_elem_of_singleton in Hnew. subst key.
    by apply next_id_fresh in Hkey.
  - apply NoDup_app. split; [done|]. split; [|apply NoDup_singleton].
    intros key Hkey Hnew. apply list_elem_of_singleton in Hnew. subst key.
    apply list_elem_of_fmap in Hkey as (row & Hrow & Hin).
    rewrite first_None in Hs. specialize (Hs row Hin).
    injection Hrow as Hcollector Huid.
    assert (source_by_uid self uid row = true) as Hfound; [|congruence].
    apply source_by_uid_true. done.
Qed.

End InsertFacts.

(** ** Collectors *)

Lemma first_app_skip {A : Type} (p : A -> bool) (table more : list A) :
  first p table = None -> first p (table ++ more) = first p more.
Proof.
  unfold first. induction table as [|r rest IH]; [done|]. simpl.
  destruct (p r); [done | exact IH].
Qed.

Lemma set_source_nil (db : Database) : set_source db (source db ++ []) = db.
Proof. destruct db. unfold set_source. simpl. by rewrite app_nil_r. Qed.

Lemma telegram_init_run (self : Collector) (dialogs : list Dialog)
    (db : Database) :
  exists added,
    telegram_init self dialogs db
    = (Returned tt, set_source db (source db ++ added))
    /\ (forall d, d ∈ dialogs -> is_channel d = true ->
          exists s,
            first (source_by_uid self (entity_id d)) (source db ++ added)
            = Some s)
    /\ Forall (fun s =>
                 exists d, d ∈ dialogs /\ is_channel d = true
                           /\ SourceModel.uid s = PyStr (entity_id d)
                           /\ SourceModel.collector_id s = collector_id self
                           /\ SourceModel.enabled s = PyBool true)
              added.
Proof.
  revert db. induction dialogs as [|dialog rest IH]; intros db.
  - exists []. rewrite set_source_nil. split; [done|].
    split; [|constructor]. intros d Hd. by apply elem_of_nil in Hd.
  - simpl. destruct (is_channel dialog) eqn:Hchannel.
    + unfold add_source, session_scope.
      destruct (first (source_by_uid self (entity_id dialog)) (source db))
        as [s|] eqn:Hs.
      * destruct (IH db) as (added & Hrun & Hknown & Hadded).
        exists added. split; [exact Hrun|]. split.
        -- intros d Hd Hd'. apply elem_of_cons in Hd as [-> | Hd].
           ++ exists s. by apply first_app_Some.
           ++ by apply Hknown.
        -- eapply Forall_impl; [exact Hadded|].
           intros s0 (d & Hd & Hrest). exists d. split; [by right | done].
      * match goal with
        | |- context [telegram_init self rest ?db1] =>
            destruct (IH db1) as (added & Hrun & Hknown & Hadded)
        end.
        simpl in Hrun, Hknown.
        eexists (_ :: added). rewrite Hrun.
        split; [unfold set_source; simpl; by rewrite <- app_assoc|]. split.
        -- intros d Hd Hd'. apply elem_of_cons in Hd as [-> | Hd].
           ++ eexists. rewrite (first_app_skip _ _ _ Hs).
              unfold first, source_by_uid, sql_eq. simpl.
              rewrite !bool_decide_eq_true_2 by done. done.
           ++ destruct (Hknown d Hd Hd') as [s Hfound]. exists s.
              by rewrite <- app_assoc in Hfound.
        -- constructor.
           ++ exists dialog. split; [by left | done].
           ++ eapply Forall_impl; [exact Hadded|].
              intros s0 (d & Hd & Hrest). exists d. split; [by right | done].
    + destruct (IH db) as (added & Hrun & Hknown & Hadded).
      exists added. split; [exact Hrun|]. split.
      * intros d Hd Hd'. apply elem_of_cons in Hd as [-> | Hd];
          [congruence | by apply Hknown].
      * eapply Forall_impl; [exact Hadded|].
        intros s0 (d & Hd & Hrest). exists d. split; [by right | done].
Qed.

Lemma telegram_init_known (self : Collector) (dialogs : list Dialog)
    (db : Database) :
  (forall d, d ∈ dialogs -> is_channel d = true ->
     exists s, first (source_by_uid self (entity_id d)) (source db) = Some s) ->
  telegram_init self dialogs db = (Returned tt, db).
Proof.
  induction dialogs as [|dialog rest IH]; [done|]. intros Hknown. simpl.
  assert (telegram_init self rest db = (Returned tt, db)) as Hrest.
  { apply IH. intros d Hd. apply Hknown. by right. }
  destruct (is_channel dialog) eqn:Hchannel; [|exact Hrest].
  destruct (Hknown dialog) as [s Hs]; [by left | done |].
  unfold add_source, session_scope. by rewrite Hs.
Qed.

(** X7.  [telegram_init] only appends source rows, one enabled row of this
    collector for a channel among the dialogs; afterwards every channel
    among the dialogs resolves to a source through [get_source], and running
    [telegram_init] again on the same dialogs adds nothing. *)
Theorem telegram_init_registers_channels (self : Collector)
    (dialogs : list Dialog) (db : Database) :
  exists added,
    telegram_init self dialogs db
    = (Returned tt, set_source db (source db ++ added))
    /\ (forall d, d ∈ dialogs -> is_channel d = true ->
          exists s,
            get_source self (entity_id d)
                       (set_source db (source db ++ added))
            = (Returned (Some s), set_source db (source db ++ added)))
    /\ Forall (fun s =>
                 exists d, d ∈ dialogs /\ is_channel d = true
                           /\ SourceModel.uid s = PyStr (entity_id d)
                           /\ SourceModel.collector_id s = collector_id self
                           /\ SourceModel.enabled s = PyBool true)
              added
    /\ telegram_init self dialogs (set_source db (source db ++ added))
       = (Returned tt, set_source db (source db ++ added)).
Proof.
  destruct (telegram_init_run self dialogs db)
    as (added & Hrun & Hknown & Hadded).
  exists added. split; [exact Hrun|]. split; [|split; [exact Hadded|]].
  - intros d Hd Hchannel. destruct (Hknown d Hd Hchannel) as [s Hs].
    exists s. unfold get_source, session_scope. simpl. by rewrite Hs.
  - apply telegram_init_known. exact Hknown.
Qed.

Section ConstructorFacts.

Context {rt : Runtime}.

Lemma register_then_get_collector_id (self : Collector) (db : Database) :
  exists db' c,
    _register_collector self Connected db = (Returned tt, db')
    /\ _register_collector self Connected db' = (Returned tt, db')
    /\ first (collector_by_short_name self) (collector db') = Some c
    /\ CollectorModel.short_name c = PyStr (short_name self)
    /\ _get_collector_id self Connected db'
       = (Returned (mkCollector (short_name self) (long_name self)
                                (CollectorModel.id c)), db')
    /\ match first (collector_by_short_name self) (collector db) with
       | Some existing => db' = db /\ c = existing
       | None =>
           db' = set_collector db (collector db ++ [c])
           /\ CollectorModel.id c
              = PyInt (next_id (CollectorModel.id <$> collector db))
           /\ (CollectorModel.id c ∉ (CollectorModel.id <$> collector db))
       end.
Proof.
  unfold _register_collector, _get_collector_id, collector_session_scope,
    session_scope.
  destruct (first (collector_by_short_name self) (collector db))
    as [existing|] eqn:Hfirst.
  - exists db, existing. rewrite Hfirst.
    apply first_Some in Hfirst as [_ Hname]. apply sql_eq_true in Hname.
    done.
  - eexists _, _. split; [reflexivity|]. simpl.
    rewrite (first_app_skip _ _ _ Hfirst). unfold first. simpl.
    unfold collector_by_short_name, sql_eq. simpl.
    rewrite bool_decide_eq_true_2 by done.
    do 6 (split; [reflexivity|]). apply next_id_fresh.
Qed.

(** X8.  The constructor of a collector drops what [_connect_db] returns.
    With the database reachable it returns the collector with
    [collector_id] set to the key of the row under its [short_name]: the row
    that was there, the store being left as it was, or else one row
    appended under a fresh key; constructing the collector a second time
    gives the same collector and adds nothing.  With the parameters missing
    the [Database] object has no engine and the constructor raises
    [AttributeError]; with the connection refused it raises what the
    session raises; either way it stores nothing. *)
Theorem collector_init_registers_once (short_name long_name : string)
    (session_error : PyExn) (db : Database) :
  let self := mkCollector short_name long_name PyNone in
  (mysql_params = true -> database_connect = true ->
   exists db' c,
     Collector__init__ short_name long_name session_error db
     = (Returned (mkCollector short_name long_name (CollectorModel.id c)),
        db')
     /\ Collector__init__ short_name long_name session_error db'
        = (Returned (mkCollector short_name long_name (CollectorModel.id c)),
           db')
     /\ first (collector_by_short_name self) (collector db') = Some c
     /\ CollectorModel.short_name c = PyStr short_name
     /\ match first (collector_by_short_name self) (collector db) with
        | Some existing => db' = db /\ c = existing
        | None =>
            db' = set_collector db (collector db ++ [c])
            /\ CollectorModel.id c
               = PyInt (next_id (CollectorModel.id <$> collector db))
            /\ (CollectorModel.id c ∉ (CollectorModel.id <$> collector db))
        end)
  /\ (mysql_params = false ->
      Collector__init__ short_name long_name session_error db
      = (Raised AttributeError, db))
  /\ (mysql_params = true -> database_connect = false ->
      Collector__init__ short_name long_name session_error db
      = (Raised session_error, db)).
Proof.
  intros self. split; [|split].
  - intros Hparams Hconnect.
    destruct (register_then_get_collector_id self db)
      as (db' & c & Hregister & Hagain & Hfirst & Hname & Hget & Hrows).
    exists db', c. unfold Collector__init__, _connect_db.
    rewrite Hparams, Hconnect. cbn [negb]. fold self.
    rewrite Hregister, Hagain, Hget. done.
  - intros Hparams. unfold Collector__init__, _connect_db.
    by rewrite Hparams.
  - intros Hparams Hconnect. unfold Collector__init__, _connect_db.
    by rewrite Hparams, Hconnect.
Qed.

End ConstructorFacts.

Section MessageFacts.

Context {rt : Runtime}.

(** X9.  For a message with text from a known source, [process_message]
    stores one content row and sends one [translate_content] task to the
    translation queue; the task's argument is the key of that row: read back
    under it, the row holds the text of the message. *)
Theorem process_message_hands_over (self : Collector) (event : NewMessage)
    (w : World) (msg : Message) (text uid : string) (s : SourceModel.t) :
  event_message event = Some msg -> message msg = Some text ->
  text <> "" -> sender_uid event = Some uid ->
  first (source_by_uid self uid) (source (database w)) = Some s ->
  exists n c,
    process_message self event w
    = (Returned tt,
       mkWorld (set_content (database w) (content (database w) ++ [c]))
               (translation_registry w) (analysis_registry w)
               (broker w ++ [mkTask "translate_content" [PyInt n]
                                    "translation"]))
    /\ get_content_attribute (PyInt n) "original_text"
         (set_content (database w) (content (database w) ++ [c]))
       = (Returned (PyStr text),
          set_content (database w) (content (database w) ++ [c]))
    /\ fst (get_content_attribute (PyInt n) "source_id"
              (set_content (database w) (content (database w) ++ [c])))
       = Returned (SourceModel.id s).
Proof.
  intros Hmsg Htext Hnonempty Huid Hs.
  unfold process_message. rewrite Hmsg, Htext, Huid.
  assert (Nat.eqb (String.length text) 0 = false) as ->.
  { destruct text; [done | reflexivity]. }
  simpl. rewrite bind_eq. unfold on_database, add_content, session_scope.
  rewrite Hs.
  assert (truthy (PyInt (next_id (ContentModel.id <$> content (database w))))
          = true) as ->.
  { simpl. apply negb_true_iff, Z.eqb_neq.
    pose proof (next_id_positive (ContentModel.id <$> content (database w))).
    lia. }
  eexists _, _. split; [reflexivity|].
  unfold get_content_attribute, session_scope. simpl.
  rewrite first_fresh_content; [done | apply next_id_fresh | done].
Qed.

(** X10.  A message with text from a channel that is not a source of the
    collector is dropped: no row is stored and no task is sent.  A message
    with text and without a sender raises [AttributeError], with nothing
    stored or sent either. *)
Theorem process_message_without_source (self : Collector)
    (event : NewMessage) (w : World) (msg : Message) (text : string) :
  event_message event = Some msg -> message msg = Some text ->
  text <> "" ->
  (forall uid, sender_uid event = Some uid ->
     first (source_by_uid self uid) (source (database w)) = None ->
     process_message self event w = (Returned tt, w))
  /\ (sender_uid event = None ->
      process_message self event w = (Raised AttributeError, w)).
Proof.
  intros Hmsg Htext Hnonempty. unfold process_message.
  rewrite Hmsg, Htext.
  assert (Nat.eqb (String.length text) 0 = false) as ->.
  { destruct text; [done | reflexivity]. }
  simpl. split.
  - intros uid -> Hs. rewrite bind_eq.
    unfold on_database, add_content, session_scope. rewrite Hs. simpl.
    by rewrite world_eta.
  - by intros ->.
Qed.

End MessageFacts.

(** ** The translation task, forwards *)

Lemma update_first_twice {A : Type} (p : A -> bool) (new newer : A)
    (table : list A) :
  p new = true ->
  update_first p newer (update_first p new table)
  = update_first p newer table.
Proof.
  intros Hnew. induction table as [|row rest IH]; [done|]. simpl.
  destruct (p row) eqn:Hrow; simpl.
  - by rewrite Hnew.
  - by rewrite Hrow, IH.
Qed.

Lemma slice_prefix_Returned (v : PyVal) (u : unit) :
  slice_prefix v = Returned u -> exists s, v = PyStr s.
Proof. destruct v; try done. eauto. Qed.

Section TranslateForwardFacts.

Context {rt : Runtime}.

Lemma connect_db_ok (w : World) :
  mysql_params = true -> database_connect = true ->
  connect_db w = (Returned tt, w).
Proof. intros Hparams Hconnect. unfold connect_db. by rewrite Hparams, Hconnect. Qed.

Lemma connect_db_down (w : World) :
  mysql_params = false \/ database_connect = false ->
  connect_db w = (Raised DatabaseConnectionError, w).
Proof.
  unfold connect_db. intros [-> | ->]; [done|]. by destruct mysql_params.
Qed.

Lemma connect_db_cases (w : World) :
  (mysql_params = true /\ database_connect = true
   /\ connect_db w = (Returned tt, w))
  \/ ((mysql_params = false \/ database_connect = false)
      /\ connect_db w = (Raised DatabaseConnectionError, w)).
Proof.
  destruct mysql_params eqn:Hparams, database_connect eqn:Hconnect.
  - left. do 2 (split; [done|]). unfold connect_db.
    by rewrite Hparams, Hconnect.
  - right. split; [by right|]. unfold connect_db.
    by rewrite Hparams, Hconnect.
  - right. split; [by left|]. unfold connect_db. by rewrite Hparams.
  - right. split; [by left|]. unfold connect_db. by rewrite Hparams.
Qed.

Lemma or_disconnect_load_translation (w : World) :
  (snd translation_modules = None
   /\ or_disconnect load_translation_services w
      = (Returned tt,
         mkWorld (database w)
           (load_modules (fst translation_modules) (translation_registry w))
           (analysis_registry w) (broker w)))
  \/ exists e w1,
       snd translation_modules <> None
       /\ or_disconnect load_translation_services w = (Raised e, w1).
Proof.
  unfold or_disconnect. rewrite load_translation_services_eq.
  destruct (snd translation_modules) as [e|]; [right | left; done].
  rewrite bind_eq. destruct (disconnect _) as [[u|e'] w1]; simpl; eauto.
Qed.

(** The invocations that return [True], exactly. *)
Lemma translate_content_True_iff (content_id : PyVal) (w w' : World) :
  translate_content content_id w = (Returned (PyBool true), w')
  <-> mysql_params = true /\ database_connect = true
      /\ snd translation_modules = None
      /\ exists c t out service,
           first (content_by_id content_id) (content (database w)) = Some c
           /\ ContentModel.original_text c = PyStr t
           /\ get_service "gpt3.5"
                (load_modules (fst translation_modules)
                              (translation_registry w))
              = Some service
           /\ translate service (PyStr t) = Returned (PyStr out)
           /\ out <> ""
           /\ w' = mkWorld
                     (set_content (database w)
                        (update_first (content_by_id content_id)
                           (with_translated_text c (PyStr out))
                           (content (database w))))
                     (load_modules (fst translation_modules)
                                   (translation_registry w))
                     (analysis_registry w)
                     (broker w ++ [mkTask "analyse_content" [content_id]
                                          "analysis"]).
Proof.
  unfold translate_content. rewrite bind_eq.
  destruct (connect_db_cases w)
    as [(Hparams & Hconnect & ->) | ([Hdown | Hdown] & ->)];
    [|split; [done | intros (H1 & H2 & _); congruence]..].
  rewrite bind_eq, on_get_content_attribute.
  unfold get_content_attribute, session_scope.
  destruct (first (content_by_id content_id) (content (database w)))
    as [c|] eqn:Hc; simpl;
    [|split; [done | by intros (_ & _ & _ & c & t & out & service & ? & _)]].
  change (default PyNone (content_getattr c "original_text"))
    with (ContentModel.original_text c).
  rewrite bind_eq. unfold of_outcome at 1.
  destruct (slice_prefix (ContentModel.original_text c)) as [u|e] eqn:Hslice;
    [|split;
      [done
      | intros (_ & _ & _ & c0 & t0 & out & service & [= <-] & Ht & _);
        by rewrite Ht in Hslice]].
  apply slice_prefix_Returned in Hslice as [t Horiginal].
  rewrite Horiginal. rewrite bind_eq.
  destruct (or_disconnect_load_translation w)
    as [(Hload & ->) | (e & w1 & Hload & ->)];
    [|split; [done | by intros (_ & _ & ? & _)]].
  rewrite bind_eq. unfold translation_service at 1. simpl.
  destruct (get_service "gpt3.5" _) as [service|] eqn:Hservice;
    [|split;
      [done
      | by intros (_ & _ & _ & c0 & t0 & out & service & _ & _ & ? & _)]].
  rewrite bind_eq. unfold of_outcome at 1.
  destruct (translate service (PyStr t)) as [text|e] eqn:Htranslate;
    [|split;
      [done
      | intros (_ & _ & _ & c0 & t0 & out & service0 & [= <-] & Ht
                & [= <-] & Hout & _);
        rewrite Horiginal in Ht; injection Ht as <-; congruence]].
  split.
  - destruct (truthy text) eqn:Htruthy; [|done].
    rewrite bind_eq. unfold of_outcome at 1.
    destruct (slice_prefix text) as [u'|e] eqn:Hslice; [|done].
    apply slice_prefix_Returned in Hslice as [out ->].
    rewrite bind_eq. unfold on_database at 1. simpl.
    rewrite (set_translated_text _ _ _ c Hc).
    rewrite bind_eq. simpl. intros [= <-].
    do 3 (split; [done|]). exists c, t, out, service.
    do 4 (split; [done|]). split; [|done].
    intros ->. done.
  - intros (_ & _ & _ & c0 & t0 & out & service0 & [= <-] & Ht
            & [= <-] & Hout & Hnonempty & ->).
    rewrite Horiginal in Ht. injection Ht as <-.
    rewrite Htranslate in Hout. injection Hout as ->.
    assert (truthy (PyStr out) = true) as ->.
    { simpl. destruct out; [done | reflexivity]. }
    rewrite bind_eq. unfold of_outcome at 1.
    change (slice_prefix (PyStr out)) with (@Returned unit tt).
    rewrite bind_eq. unfold on_database at 1. simpl.
    rewrite (set_translated_text _ _ _ c Hc).
    rewrite bind_eq. reflexivity.
Qed.

End TranslateForwardFacts.

Section TranslateOutcomes.

Context {rt : Runtime}.

(** X11.  With the database reachable and the translation modules loading,
    for a content row whose original text is a string, when the provider
    loaded under 'gpt3.5' answers with a string that is not empty, the task
    returns [True]: it has stored the answer as the row's translated text,
    and then sent one [analyse_content] task for the identifier to the
    analysis queue. *)
Theorem translate_content_succeeds (content_id : PyVal) (w : World)
    (c : ContentModel.t) (t out : string) (service : TranslationService) :
  mysql_params = true -> database_connect = true ->
  snd translation_modules = None ->
  first (content_by_id content_id) (content (database w)) = Some c ->
  ContentModel.original_text c = PyStr t ->
  get_service "gpt3.5"
    (load_modules (fst translation_modules) (translation_registry w))
  = Some service ->
  translate service (PyStr t) = Returned (PyStr out) -> out <> "" ->
  translate_content content_id w
  = (Returned (PyBool true),
     mkWorld
       (set_content (database w)
          (update_first (content_by_id content_id)
             (with_translated_text c (PyStr out)) (content (database w))))
       (load_modules (fst translation_modules) (translation_registry w))
       (analysis_registry w)
       (broker w ++ [mkTask "analyse_content" [content_id] "analysis"])).
Proof.
  intros Hparams Hconnect Hload Hc Ht Hservice Hout Hnonempty.
  apply translate_content_True_iff. do 3 (split; [done|]).
  exists c, t, out, service. done.
Qed.

(** X13.  After a successful translation, what the analysis task will read
    as the translated text of the content is a string that is not empty,
    the one the provider returned; the original text and the source of the
    row read as before. *)
Theorem translate_content_hands_over (content_id : PyVal) (w w' : World) :
  translate_content content_id w = (Returned (PyBool true), w') ->
  exists out,
    out <> ""
    /\ get_content_attribute content_id "translated_text" (database w')
       = (Returned (PyStr out), database w')
    /\ fst (get_content_attribute content_id "original_text" (database w'))
       = fst (get_content_attribute content_id "original_text" (database w))
    /\ fst (get_content_attribute content_id "source_id" (database w'))
       = fst (get_content_attribute content_id "source_id" (database w)).
Proof.
  intros Hrun. apply translate_content_True_iff in Hrun
    as (_ & _ & _ & c & t & out & service & Hc & _ & _ & _ & Hnonempty & ->).
  pose proof (first_Some _ _ _ Hc) as [_ Hid].
  exists out. split; [done|].
  unfold get_content_attribute, session_scope. simpl.
  rewrite (first_update_first _ (with_translated_text c (PyStr out)) c _ Hc)
    by done.
  by rewrite Hc.
Qed.


(** X15.  When the database parameters are missing or the connection
    fails, the translation task raises [DatabaseConnectionError], and the
    analysis task, whose handler names an attribute the [Database] object
    does not have, raises [AttributeError]; neither changes anything. *)
Theorem tasks_without_database (content_id : PyVal) (w : World) :
  mysql_params = false \/ database_connect = false ->
  translate_content content_id w = (Raised DatabaseConnectionError, w)
  /\ analyse_content content_id w = (Raised AttributeError, w).
Proof.
  intros Hdown. unfold translate_content, analyse_content.
  rewrite !bind_eq. unfold connect_db_or_attribute_error.
  by rewrite (connect_db_down w Hdown).
Qed.

(** X16.  With the database reachable, the translation task fails before it
    changes anything: with [ContentNotFoundError] when no content row has
    the identifier; with [TypeError], before any module is loaded, when the
    row's original text is null; and with [TypeError] when the modules load
    and none has registered a provider as 'gpt3.5'. *)
Theorem translate_content_early_failures (content_id : PyVal) (w : World) :
  mysql_params = true -> database_connect = true ->
  ((forall c, c ∈ content (database w) -> ContentModel.id c <> content_id) ->
   translate_content content_id w = (Raised ContentNotFoundError, w))
  /\ (forall c,
        first (content_by_id content_id) (content (database w)) = Some c ->
        ContentModel.original_text c = PyNone ->
        translate_content content_id w = (Raised TypeError, w))
  /\ (forall c t,
        first (content_by_id content_id) (content (database w)) = Some c ->
        ContentModel.original_text c = PyStr t ->
        snd translation_modules = None ->
        get_service "gpt3.5"
          (load_modules (fst translation_modules) (translation_registry w))
        = None ->
        translate_content content_id w
        = (Raised TypeError,
           mkWorld (database w)
             (load_modules (fst translation_modules)
                           (translation_registry w))
             (analysis_registry w) (broker w))).
Proof.
  intros Hparams Hconnect. unfold translate_content.
  rewrite bind_eq, (connect_db_ok w Hparams Hconnect).
  rewrite bind_eq, on_get_content_attribute.
  unfold get_content_attribute, session_scope.
  split; [|split].
  - intros Hmissing.
    assert (first (content_by_id content_id) (content (database w)) = None)
      as ->; [|done].
    apply first_None. intros c Hc. apply sql_eq_false. by apply Hmissing.
  - intros c Hc Hnull. rewrite Hc. simpl.
    change (default PyNone (content_getattr c "original_text"))
      with (ContentModel.original_text c).
    rewrite Hnull. reflexivity.
  - intros c t Hc Ht Hload Hnone. rewrite Hc. simpl.
    change (default PyNone (content_getattr c "original_text"))
      with (ContentModel.original_text c).
    rewrite Ht, bind_eq. unfold of_outcome at 1. simpl slice_prefix.
    cbv iota. rewrite bind_eq.
    destruct (or_disconnect_load_translation w)
      as [(_ & ->) | (e & w1 & Hfail & _)]; [|done].
    rewrite bind_eq. unfold translation_service. simpl.
    by rewrite Hnone.
Qed.

(** C7, as the code has it.  With the database reachable and the modules
    loaded, for a content row whose original text is a string, a failure of
    the provider registered as 'gpt3.5' leaves every row and the queue as
    they were, and ends the invocation in one of two ways: when the provider
    raises, the task raises the same exception; when the provider returns no
    text, the task returns [False] and raises nothing. *)
Theorem translate_content_when_provider_fails (content_id : PyVal)
    (w : World) (c : ContentModel.t) (t : string)
    (service : TranslationService) :
  mysql_params = true -> database_connect = true ->
  snd translation_modules = None ->
  first (content_by_id content_id) (content (database w)) = Some c ->
  ContentModel.original_text c = PyStr t ->
  get_service "gpt3.5"
    (load_modules (fst translation_modules) (translation_registry w))
  = Some service ->
  provider_fails (translate service (PyStr t)) ->
  exists o,
    translate_content content_id w
    = (o,
       mkWorld (database w)
         (load_modules (fst translation_modules) (translation_registry w))
         (analysis_registry w) (broker w))
    /\ match translate service (PyStr t) with
       | Raised e => o = Raised e
       | Returned _ => o = Returned (PyBool false)
       end.
Proof.
  intros Hparams Hconnect Hload Hc Ht Hservice Hfails.
  unfold translate_content.
  rewrite bind_eq, (connect_db_ok w Hparams Hconnect).
  rewrite bind_eq, on_get_content_attribute.
  unfold get_content_attribute, session_scope. rewrite Hc. simpl.
  change (default PyNone (content_getattr c "original_text"))
    with (ContentModel.original_text c).
  rewrite Ht, bind_eq. unfold of_outcome at 1. simpl slice_prefix.
  cbv iota. rewrite bind_eq.
  destruct (or_disconnect_load_translation w)
    as [(_ & ->) | (e & w1 & Hfail & _)]; [|done].
  rewrite bind_eq. unfold translation_service at 1. simpl.
  rewrite Hservice. rewrite bind_eq. unfold of_outcome at 1.
  destruct (translate service (PyStr t)) as [text|e]; simpl in Hfails.
  - rewrite Hfails. eexists. split; reflexivity.
  - eexists. split; reflexivity.
Qed.

End TranslateOutcomes.

(** X12.  The task does not look at whether a row is translated already.
    Run again on a row it has translated, in a process where the provider
    loaded under 'gpt3.5' now answers [out], it returns [True] again: the
    row is as a first translation to [out] would have left it, the earlier
    translated text being overwritten, and a second [analyse_content] task
    is sent. *)
Theorem translate_content_again (rt1 rt2 : Runtime) (content_id : PyVal)
    (w w1 : World) (service : TranslationService) (out : string) :
  @translate_content rt1 content_id w = (Returned (PyBool true), w1) ->
  @mysql_params rt2 = true -> @database_connect rt2 = true ->
  snd (@translation_modules rt2) = None ->
  get_service "gpt3.5"
    (load_modules (fst (@translation_modules rt2)) (translation_registry w1))
  = Some service ->
  (forall c,
     first (content_by_id content_id) (content (database w)) = Some c ->
     translate service (ContentModel.original_text c)
     = Returned (PyStr out)) ->
  out <> "" ->
  exists c w2,
    first (content_by_id content_id) (content (database w)) = Some c
    /\ @translate_content rt2 content_id w1 = (Returned (PyBool true), w2)
    /\ database w2
       = set_content (database w)
           (update_first (content_by_id content_id)
              (with_translated_text c (PyStr out)) (content (database w)))
    /\ broker w2
       = broker w1 ++ [mkTask "analyse_content" [content_id] "analysis"].
Proof.
  intros Hrun Hparams Hconnect Hload Hservice Hanswer Hnonempty.
  apply translate_content_True_iff in Hrun
    as (_ & _ & _ & c & t & out1 & service1 & Hc & Ht & _ & _ & _ & ->).
  pose proof (first_Some _ _ _ Hc) as [_ Hid].
  specialize (Hanswer c Hc). rewrite Ht in Hanswer.
  exists c. eexists. split; [done|]. split.
  - apply translate_content_True_iff. do 3 (split; [done|]).
    exists (with_translated_text c (PyStr out1)), t, out, service.
    split; [by apply (first_update_first _ _ c)|]. split; [done|].
    split; [exact Hservice|]. split; [exact Hanswer|].
    split; [exact Hnonempty | reflexivity].
  - simpl. split; [|done].
    rewrite update_first_twice by done. reflexivity.
Qed.

(** ** The analysis task, step by step *)

Lemma NoDup_next_id (keys : list PyVal) :
  NoDup keys -> NoDup (keys ++ [PyInt (next_id keys)]).
Proof.
  intros Hkeys. apply NoDup_app. split; [done|].
  split; [|apply NoDup_singleton].
  intros key Hkey Hnew. apply list_elem_of_singleton in Hnew. subst key.
  by apply next_id_fresh in Hkey.
Qed.

Section AnalyseSteps.

Context {rt : Runtime}.

Lemma load_analysis_services_eq (w : World) :
  load_analysis_services w
  = (match snd analysis_modules with
     | Some e => Raised e
     | None => Returned tt
     end,
     analysis_loaded w).
Proof.
  unfold load_analysis_services, analysis_loaded.
  by destruct analysis_modules as [registrations [e|]].
Qed.

Lemma or_disconnect_load_analysis (w : World) :
  (snd analysis_modules = None
   /\ or_disconnect load_analysis_services w
      = (Returned tt, analysis_loaded w))
  \/ exists e,
       snd analysis_modules <> None
       /\ or_disconnect load_analysis_services w
          = (Raised e, analysis_loaded w).
Proof.
  unfold or_disconnect. rewrite load_analysis_services_eq.
  destruct (snd analysis_modules) as [e|]; [right | left; done].
  rewrite bind_eq. pose proof (disconnect_world (analysis_loaded w)) as Hw.
  destruct (disconnect _) as [[u|e'] w1]; simpl in *; subst w1; eauto.
Qed.

(** One turn of the loop, in full. *)
Lemma analyse_requirement_step (content_id text : PyVal)
    (requirement : gmap string PyVal) (w w' : World)
    (o : Outcome (option PyVal)) :
  analyse_requirement content_id text requirement w = (o, w') ->
  (w' = w
   /\ ((exists e, o = Raised e)
       \/ (o = Returned (Some (PyBool false))
           /\ get_service "gpt3.5" (analysis_registry w) = None)))
  \/ (o = Returned None
      /\ exists service res,
           get_service "gpt3.5" (analysis_registry w) = Some service
           /\ answered service content_id text utcnow res requirement
           /\ AnalysisResultModel.id res
              = PyInt (next_id (AnalysisResultModel.id <$>
                                  analysis_result (database w)))
           /\ w' = results_added w [res]).
Proof.
  unfold analyse_requirement, subscript, analysis_service, on_database,
    of_outcome, raise, mbind, M_bind, mret, M_ret.
  destruct (requirement !! "name") as [name|];
    [|intros [= <- <-]; left; eauto].
  destruct (requirement !! "llm_id") as [llm_id|];
    [|intros [= <- <-]; left; eauto].
  destruct (get_service "gpt3.5" (analysis_registry w)) as [service|]
    eqn:Hservice; [|intros [= <- <-]; left; eauto].
  destruct (requirement !! "prompt") as [prompt|] eqn:Hprompt;
    [|intros [= <- <-]; left; eauto].
  destruct (analyse service prompt text) as [analysis|e] eqn:Hanalyse;
    [|intros [= <- <-]; left; eauto].
  destruct (slice_prefix analysis) as [u|e] eqn:Hslice;
    [|intros [= <- <-]; left; eauto].
  apply slice_prefix_Returned in Hslice as [out ->].
  destruct (requirement !! "req_id") as [req_id|] eqn:Hreq;
    [|intros [= <- <-]; left; eauto].
  simpl. intros [= <- <-]. right. split; [done|].
  exists service,
    (AnalysisResultModel.mk
       (PyInt (next_id (AnalysisResultModel.id <$>
                          analysis_result (database w))))
       req_id content_id utcnow (PyStr out)).
  split; [done|]. split; [|split; reflexivity].
  exists prompt, out. simpl. done.
Qed.

(** The loop: it stores, one after the other and under fresh keys, the
    answers to an initial part of the requirements, and returns [True] only
    when that is all of them. *)
Lemma analyse_requirements_trace (content_id text : PyVal)
    (requirements : list (gmap string PyVal)) (w w' : World)
    (o : Outcome PyVal) :
  analyse_requirements content_id text requirements w = (o, w') ->
  exists new done rest,
    requirements = done ++ rest
    /\ w' = results_added w new
    /\ Forall2 (fun res requirement =>
                  exists service,
                    get_service "gpt3.5" (analysis_registry w) = Some service
                    /\ answered service content_id text utcnow res
                                requirement)
               new done
    /\ (NoDup (AnalysisResultModel.id <$> analysis_result (database w)) ->
        NoDup (AnalysisResultModel.id <$> analysis_result (database w')))
    /\ ((o = Returned (PyBool true) /\ rest = [])
        \/ (o = Returned (PyBool false) /\ new = [] /\ rest <> []
            /\ get_service "gpt3.5" (analysis_registry w) = None)
        \/ (exists e, o = Raised e /\ rest <> [])).
Proof.
  revert w. induction requirements as [|requirement more IH]; intros w.
  - simpl. intros [= <- <-]. exists [], [], [].
    rewrite results_added_nil. split; [done|]. split; [done|].
    split; [constructor|]. split; [done|]. by left.
  - simpl. rewrite bind_eq.
    destruct (analyse_requirement content_id text requirement w)
      as [returned w1] eqn:Hstep.
    apply analyse_requirement_step in Hstep
      as [(-> & [[e ->] | [-> Hnone]])
         | (-> & service & res & Hservice & Hanswered & Hkey & ->)].
    + intros [= <- <-]. exists [], [], (requirement :: more).
      rewrite results_added_nil. split; [done|]. split; [done|].
      split; [constructor|]. split; [done|]. right. right. eauto.
    + intros [= <- <-]. exists [], [], (requirement :: more).
      rewrite results_added_nil. split; [done|]. split; [done|].
      split; [constructor|]. split; [done|]. right. left. done.
    + intros Hrest.
      apply IH in Hrest
        as (new & done & rest & -> & -> & Hall & Hkeys & Hend).
      exists (res :: new), (requirement :: done), rest.
      split; [done|]. split; [by rewrite results_added_app|].
      split; [constructor; [eauto | exact Hall]|]. split.
      * intros Hnodup. apply Hkeys. simpl. rewrite fmap_app. simpl.
        rewrite Hkey. by apply NoDup_next_id.
      * destruct Hend as [Hend | [(-> & -> & Hrest & Hnone) | Hend]];
          [by left | | by right; right].
        simpl in Hnone. congruence.
Qed.

(** What the task does before the loop, and that it then runs the loop on
    the enabled requirements of the content's source. *)
Lemma analyse_content_cases (content_id : PyVal) (w w' : World)
    (o : Outcome PyVal) :
  analyse_content content_id w = (o, w') ->
  (same_store w w' /\ (o = Returned PyNone \/ exists e, o = Raised e))
  \/ (exists c s,
        mysql_params = true /\ database_connect = true
        /\ snd analysis_modules = None
        /\ first (content_by_id content_id) (content (database w)) = Some c
        /\ first (source_by_id (ContentModel.source_id c))
                 (source (database w)) = Some s
        /\ truthy (SourceModel.enabled s) = true
        /\ analyse_requirements content_id (ContentModel.translated_text c)
             (requirement_dict <$>
                enabled_requirements (ContentModel.source_id c) (database w))
             (analysis_loaded w)
           = (o, w')).
Proof.
  unfold analyse_content. rewrite bind_eq.
  unfold connect_db_or_attribute_error.
  destruct (connect_db_cases w)
    as [(Hparams & Hconnect & ->) | (Hdown & ->)];
    [|intros [= <- <-]; left; split; [done | eauto]].
  rewrite bind_eq.
  destruct (or_disconnect_load_analysis w)
    as [(Hload & ->) | (e & Hload & ->)];
    [|intros [= <- <-]; left; split; [done | eauto]].
  rewrite bind_eq, on_get_content_attribute.
  unfold get_content_attribute, session_scope. simpl.
  destruct (first (content_by_id content_id) (content (database w)))
    as [c|] eqn:Hc; simpl;
    [|intros [= <- <-]; left; split; [done | eauto]].
  rewrite bind_eq. unfold on_database at 1. simpl. rewrite Hc. simpl.
  rewrite bind_eq. unfold on_database at 1.
  unfold get_source_attribute, session_scope. simpl.
  change (default PyNone (content_getattr c "source_id"))
    with (ContentModel.source_id c).
  destruct (first (source_by_id (ContentModel.source_id c))
                  (source (database w))) as [s|] eqn:Hs; simpl;
    [|intros [= <- <-]; left; split; [done | eauto]].
  change (default PyNone (source_getattr s "enabled"))
    with (SourceModel.enabled s).
  destruct (truthy (SourceModel.enabled s)) eqn:Henabled; simpl.
  - rewrite bind_eq. unfold on_database at 1.
    rewrite get_analysis_requirements_rows. simpl.
    change (default PyNone (content_getattr c "translated_text"))
      with (ContentModel.translated_text c).
    intros Hloop. right. exists c, s. do 6 (split; [done|]). exact Hloop.
  - intros [= <- <-]. left. split; [done | by left].
Qed.

End AnalyseSteps.

(** ** The analysis task, outcomes *)

Lemma answered_row (service : AnalysisService) (content_id text now : PyVal)
    (res : AnalysisResultModel.t) (r : AnalysisRequirementModel.t) :
  answered service content_id text now res (requirement_dict r) ->
  answers service content_id text now res r.
Proof.
  destruct (requirement_dict_keys r) as (_ & Hid & _ & _ & Hprompt).
  intros (prompt & out & Hp & Hr & Hanalyse & Hout & Hcontent & Htime).
  rewrite Hprompt in Hp. injection Hp as <-.
  rewrite Hid in Hr. injection Hr as Hr.
  exists out. done.
Qed.

Section AnalyseOutcomes.

Context {rt : Runtime}.

Lemma analyse_requirement_answer (content_id text : PyVal)
    (r : AnalysisRequirementModel.t) (w : World)
    (service : AnalysisService) (out : string) :
  get_service "gpt3.5" (analysis_registry w) = Some service ->
  analyse service (AnalysisRequirementModel.prompt r) text
  = Returned (PyStr out) ->
  analyse_requirement content_id text (requirement_dict r) w
  = (Returned None,
     results_added w
       [AnalysisResultModel.mk
          (PyInt (next_id (AnalysisResultModel.id <$>
                             analysis_result (database w))))
          (AnalysisRequirementModel.id r) content_id utcnow (PyStr out)]).
Proof.
  intros Hservice Hout.
  destruct (requirement_dict_keys r) as (_ & Hid & Hname & Hllm & Hprompt).
  unfold analyse_requirement, subscript, analysis_service, on_database,
    of_outcome, raise, mbind, M_bind, mret, M_ret.
  by rewrite Hname, Hllm, Hservice, Hprompt, Hout, Hid.
Qed.

Lemma analyse_requirements_cons (content_id text : PyVal)
    (requirement : gmap string PyVal) (rest : list (gmap string PyVal))
    (w : World) :
  analyse_requirements content_id text (requirement :: rest) w
  = match analyse_requirement content_id text requirement w with
    | (Returned (Some v), w1) => (Returned v, w1)
    | (Returned None, w1) => analyse_requirements content_id text rest w1
    | (Raised e, w1) => (Raised e, w1)
    end.
Proof.
  simpl. rewrite bind_eq.
  by destruct (analyse_requirement _ _ _ _) as [[[v|]|e] w1].
Qed.

Lemma analyse_requirements_answers (content_id text : PyVal)
    (rows : list AnalysisRequirementModel.t) (w : World)
    (service : AnalysisService) :
  get_service "gpt3.5" (analysis_registry w) = Some service ->
  Forall (fun r => exists out,
            analyse service (AnalysisRequirementModel.prompt r) text
            = Returned (PyStr out)) rows ->
  exists new,
    analyse_requirements content_id text (requirement_dict <$> rows) w
    = (Returned (PyBool true), results_added w new)
    /\ Forall2 (answers service content_id text utcnow) new rows.
Proof.
  intros Hservice Hall. revert w Hservice.
  induction Hall as [|r rows [out Hout] _ IH]; intros w Hservice.
  - exists []. by rewrite results_added_nil.
  - rewrite fmap_cons, analyse_requirements_cons.
    rewrite (analyse_requirement_answer _ _ r w service out Hservice Hout).
    destruct (IH (results_added w
                    [AnalysisResultModel.mk
                       (PyInt (next_id (AnalysisResultModel.id <$>
                                          analysis_result (database w))))
                       (AnalysisRequirementModel.id r) content_id utcnow
                       (PyStr out)]) Hservice) as (new & -> & Hnew).
    eexists (_ :: new). rewrite results_added_app. split; [reflexivity|].
    constructor; [|exact Hnew]. exists out. done.
Qed.

Lemma analyse_requirements_no_provider (content_id text : PyVal)
    (rows : list AnalysisRequirementModel.t) (w : World) :
  get_service "gpt3.5" (analysis_registry w) = None ->
  analyse_requirements content_id text (requirement_dict <$> rows) w
  = (Returned (PyBool (match rows with [] => true | _ => false end)), w).
Proof.
  intros Hnone. destruct rows as [|r rows]; [done|].
  rewrite fmap_cons, analyse_requirements_cons.
  destruct (requirement_dict_keys r) as (_ & Hid & Hname & Hllm & Hprompt).
  unfold analyse_requirement, subscript, analysis_service, on_database,
    of_outcome, raise, mbind, M_bind, mret, M_ret.
  by rewrite Hname, Hllm, Hnone.
Qed.

(** The task, once it has found an enabled source, is the loop over the
    enabled requirements of that source. *)
Lemma analyse_content_loop (content_id : PyVal) (w : World)
    (c : ContentModel.t) (s : SourceModel.t) :
  mysql_params = true -> database_connect = true ->
  snd analysis_modules = None ->
  first (content_by_id content_id) (content (database w)) = Some c ->
  first (source_by_id (ContentModel.source_id c)) (source (database w))
  = Some s ->
  truthy (SourceModel.enabled s) = true ->
  analyse_content content_id w
  = analyse_requirements content_id (ContentModel.translated_text c)
      (requirement_dict <$>
         enabled_requirements (ContentModel.source_id c) (database w))
      (analysis_loaded w).
Proof.
  intros Hparams Hconnect Hload Hc Hs Henabled.
  unfold analyse_content. rewrite bind_eq.
  unfold connect_db_or_attribute_error.
  rewrite (connect_db_ok w Hparams Hconnect). rewrite bind_eq.
  destruct (or_disconnect_load_analysis w)
    as [(_ & ->) | (e & Hfail & _)]; [|done].
  rewrite bind_eq, on_get_content_attribute.
  unfold get_content_attribute, session_scope. simpl. rewrite Hc. simpl.
  rewrite bind_eq. unfold on_database at 1. simpl. rewrite Hc. simpl.
  rewrite bind_eq. unfold on_database at 1.
  unfold get_source_attribute, session_scope. simpl.
  change (default PyNone (content_getattr c "source_id"))
    with (ContentModel.source_id c).
  rewrite Hs. simpl.
  change (default PyNone (source_getattr s "enabled"))
    with (SourceModel.enabled s).
  rewrite Henabled. simpl.
  rewrite bind_eq. unfold on_database at 1.
  rewrite get_analysis_requirements_rows. simpl. reflexivity.
Qed.

(** X17.  With the database reachable and the analysis modules loading,
    for a content row of an enabled source, when the provider loaded under
    'gpt3.5' answers every enabled requirement of the source with a string,
    the task returns [True]; it has stored, for each of these requirements
    in order, one row that holds the provider's answer to the requirement's
    prompt about the translated text, the requirement's and the content's
    identifiers and the time. *)
Theorem analyse_content_succeeds (content_id : PyVal) (w : World)
    (c : ContentModel.t) (s : SourceModel.t) (service : AnalysisService) :
  mysql_params = true -> database_connect = true ->
  snd analysis_modules = None ->
  first (content_by_id content_id) (content (database w)) = Some c ->
  first (source_by_id (ContentModel.source_id c)) (source (database w))
  = Some s ->
  truthy (SourceModel.enabled s) = true ->
  get_service "gpt3.5" (analysis_registry (analysis_loaded w))
  = Some service ->
  Forall (fun r => exists out,
            analyse service (AnalysisRequirementModel.prompt r)
                    (ContentModel.translated_text c)
            = Returned (PyStr out))
         (enabled_requirements (ContentModel.source_id c) (database w)) ->
  exists new,
    analyse_content content_id w
    = (Returned (PyBool true), results_added (analysis_loaded w) new)
    /\ Forall2 (answers service content_id
                        (ContentModel.translated_text c) utcnow)
               new
               (enabled_requirements (ContentModel.source_id c)
                                     (database w)).
Proof.
  intros Hparams Hconnect Hload Hc Hs Henabled Hservice Hall.
  rewrite (analyse_content_loop _ _ c s) by done.
  by apply analyse_requirements_answers.
Qed.

(** X18.  Whatever its outcome, the task has stored results for an initial
    part of the enabled requirements of the content's source, in order, and
    each stored output is a string; what was stored before a failure stays
    stored.  When it returns [False], no provider is registered as 'gpt3.5'
    and it has stored nothing. *)
Theorem analyse_content_fails_fast (content_id : PyVal) (w w' : World)
    (o : Outcome PyVal) (c : ContentModel.t) :
  analyse_content content_id w = (o, w') ->
  first (content_by_id content_id) (content (database w)) = Some c ->
  exists new,
    analysis_result (database w') = analysis_result (database w) ++ new
    /\ (AnalysisResultModel.req_id <$> new)
       `prefix_of`
       (AnalysisRequirementModel.id <$>
          enabled_requirements (ContentModel.source_id c) (database w))
    /\ Forall (fun res => exists out,
                 AnalysisResultModel.output res = PyStr out) new
    /\ (o = Returned (PyBool true) ->
        length new
        = length (enabled_requirements (ContentModel.source_id c)
                                       (database w)))
    /\ (o = Returned (PyBool false) ->
        new = []
        /\ get_service "gpt3.5" (analysis_registry w') = None).
Proof.
  intros Hrun Hc.
  apply analyse_content_cases in Hrun
    as [([Hdb Hbroker] & Hstop)
       | (c0 & s & _ & _ & _ & Hc0 & _ & _ & Hloop)].
  - exists []. rewrite Hdb, app_nil_r. split; [done|].
    split; [apply prefix_nil|]. split; [constructor|].
    split; intros ->; destruct Hstop as [? | [e ?]]; done.
  - rewrite Hc in Hc0. injection Hc0 as <-.
    apply analyse_requirements_trace in Hloop
      as (new & done & rest & Hsplit & -> & Hall & _ & Hend).
    apply fmap_app_inv in Hsplit as (rows1 & rows2 & Hdone & Hrest & Hrows).
    subst done rest.
    assert (Forall2 (fun res r =>
                       exists service,
                         answers service content_id
                                 (ContentModel.translated_text c) utcnow
                                 res r) new rows1) as Hanswers.
    { apply Forall2_fmap_r in Hall. eapply Forall2_impl; [exact Hall|].
      intros res r (service & _ & Hanswered). exists service.
      by apply answered_row. }
    assert (AnalysisResultModel.req_id <$> new
            = AnalysisRequirementModel.id <$> rows1) as Hids.
    { clear -Hanswers.
      induction Hanswers as [|res r new rows (service & out & _ & _ & Hid & _)
                              _ IH]; [done|].
      rewrite !fmap_cons. congruence. }
    exists new. split; [done|]. rewrite Hrows, fmap_app, Hids.
    split; [by apply prefix_app_r|]. split; [|split].
    + clear -Hanswers.
      induction Hanswers as [|res r new rows (service & out & _ & Hout & _)
                              _ IH]; constructor; eauto.
    + intros ->. destruct Hend as [[_ Hrest] | [(? & _) | (e & ? & _)]];
        [|done..].
      apply fmap_nil_inv in Hrest as ->. rewrite app_nil_r.
      by rewrite <- (length_fmap AnalysisResultModel.req_id), Hids,
        length_fmap.
    + intros ->.
      destruct Hend as [[? _] | [(_ & -> & _ & Hnone) | (e & ? & _)]];
        [done | | done].
      split; [done|]. rewrite results_added_nil. exact Hnone.
Qed.


(** X19.  With the database reachable and the modules loading, for a
    content row of an enabled source, when no provider is registered as
    'gpt3.5' the task stores nothing: it returns [False] if the source has an
    enabled requirement, and [True] if it has none. *)
Theorem analyse_content_without_provider (content_id : PyVal) (w : World)
    (c : ContentModel.t) (s : SourceModel.t) :
  mysql_params = true -> database_connect = true ->
  snd analysis_modules = None ->
  first (content_by_id content_id) (content (database w)) = Some c ->
  first (source_by_id (ContentModel.source_id c)) (source (database w))
  = Some s ->
  truthy (SourceModel.enabled s) = true ->
  get_service "gpt3.5" (analysis_registry (analysis_loaded w)) = None ->
  analyse_content content_id w
  = (Returned
       (PyBool
          match enabled_requirements (ContentModel.source_id c) (database w)
          with
          | [] => true
          | _ => false
          end),
     analysis_loaded w).
Proof.
  intros Hparams Hconnect Hload Hc Hs Henabled Hnone.
  rewrite (analyse_content_loop _ _ c s) by done.
  by apply analyse_requirements_no_provider.
Qed.

(** X20.  With the database reachable and the modules loading, the
    analysis task raises [ContentNotFoundError], and stores nothing, when no
    content row has the identifier, and also when the content row names a
    source that no source row has. *)
Theorem analyse_content_missing_rows (content_id : PyVal) (w : World) :
  mysql_params = true -> database_connect = true ->
  snd analysis_modules = None ->
  ((forall c, c ∈ content (database w) -> ContentModel.id c <> content_id) ->
   analyse_content content_id w
   = (Raised ContentNotFoundError, analysis_loaded w))
  /\ (forall c,
        first (content_by_id content_id) (content (database w)) = Some c ->
        (forall s, s ∈ source (database w) ->
           SourceModel.id s <> ContentModel.source_id c) ->
        analyse_content content_id w
        = (Raised ContentNotFoundError, analysis_loaded w)).
Proof.
  intros Hparams Hconnect Hload.
  unfold analyse_content. rewrite bind_eq.
  unfold connect_db_or_attribute_error.
  rewrite (connect_db_ok w Hparams Hconnect). rewrite bind_eq.
  destruct (or_disconnect_load_analysis w)
    as [(_ & ->) | (e & Hfail & _)]; [|done].
  rewrite bind_eq, on_get_content_attribute.
  unfold get_content_attribute, session_scope. simpl. split.
  - intros Hmissing.
    assert (first (content_by_id content_id) (content (database w)) = None)
      as ->; [|done].
    apply first_None. intros c Hc. apply sql_eq_false. by apply Hmissing.
  - intros c Hc Hmissing. rewrite Hc. simpl.
    rewrite bind_eq. unfold on_database at 1. simpl. rewrite Hc. simpl.
    rewrite bind_eq. unfold on_database at 1.
    unfold get_source_attribute, session_scope. simpl.
    change (default PyNone (content_getattr c "source_id"))
      with (ContentModel.source_id c).
    assert (first (source_by_id (ContentModel.source_id c))
                  (source (database w)) = None) as ->; [|done].
    apply first_None. intros s Hs. apply sql_eq_false. by apply Hmissing.
Qed.

(** X21.  The analysis task is the end of the line: whatever its outcome,
    it sends no task, it leaves the collector, source and requirement tables
    as they were, and it only appends to the result table. *)
Theorem analyse_content_is_terminal (content_id : PyVal) (w w' : World)
    (o : Outcome PyVal) :
  analyse_content content_id w = (o, w') ->
  broker w' = broker w
  /\ collector (database w') = collector (database w)
  /\ source (database w') = source (database w)
  /\ analysis_requirement (database w') = analysis_requirement (database w)
  /\ analysis_result (database w) `prefix_of` analysis_result (database w').
Proof.
  intros Hrun.
  apply analyse_content_cases in Hrun
    as [([Hdb Hbroker] & _) | (c & s & _ & _ & _ & _ & _ & _ & Hloop)].
  - rewrite Hdb, Hbroker. by do 4 (split; [done|]).
  - apply analyse_requirements_trace in Hloop
      as (new & done & rest & _ & -> & _).
    simpl. do 4 (split; [done|]). by apply prefix_app_r.
Qed.

End AnalyseOutcomes.

(** X22.  Nothing keeps the task from answering a requirement twice: when
    two invocations for the same content both return [True], the second has
    appended a second row for every enabled requirement of the source,
    behind the rows of the first. *)
Theorem analyse_content_again (rt1 rt2 : Runtime) (content_id : PyVal)
    (w w1 w2 : World) (c : ContentModel.t) :
  @analyse_content rt1 content_id w = (Returned (PyBool true), w1) ->
  @analyse_content rt2 content_id w1 = (Returned (PyBool true), w2) ->
  first (content_by_id content_id) (content (database w)) = Some c ->
  exists first_rows second_rows,
    analysis_result (database w2)
    = analysis_result (database w) ++ first_rows ++ second_rows
    /\ AnalysisResultModel.req_id <$> first_rows
       = AnalysisRequirementModel.id <$>
           enabled_requirements (ContentModel.source_id c) (database w)
    /\ AnalysisResultModel.req_id <$> second_rows
       = AnalysisRequirementModel.id <$>
           enabled_requirements (ContentModel.source_id c) (database w).
Proof.
  intros Hfirst Hsecond Hc.
  apply analyse_content_run in Hfirst
    as (first_rows & Hdb1 & _ & _ & _ & Htrue1).
  apply analyse_content_run in Hsecond
    as (second_rows & Hdb2 & _ & _ & _ & Htrue2).
  destruct (Htrue1 eq_refl) as (c1 & Hc1 & Hids1).
  destruct (Htrue2 eq_refl) as (c2 & Hc2 & Hids2).
  rewrite Hc in Hc1. injection Hc1 as <-.
  rewrite Hdb1 in Hc2. simpl in Hc2. rewrite Hc in Hc2. injection Hc2 as <-.
  exists first_rows, second_rows. rewrite Hdb2, Hdb1. simpl.
  split; [by rewrite app_assoc|]. split; [done|].
  rewrite Hids2, Hdb1. reflexivity.
Qed.

(** ** The further properties on the sample data *)

Lemma load_translation_services_again_witness :
  @load_translation_services sample_runtime
    (snd (@load_translation_services sample_runtime sample_world))
  = @load_translation_services sample_runtime sample_world
  /\ get_service "gpt3.5"
       (translation_registry
          (snd (@load_translation_services sample_runtime sample_world)))
     = Some stub_translate.
Proof.
  destruct (@load_translation_services_again sample_runtime sample_world)
    as (Hagain & Hfound & _).
  split; [exact Hagain|]. apply Hfound; [apply NoDup_singleton | by left].
Defined.

Lemma set_then_get_content_attribute_witness :
  exists db',
    @set_content_attribute sample_runtime (PyInt 101) "translated_text"
      (PyStr "Hello world") sample_db
    = (Returned tt, db')
    /\ @get_content_attribute sample_runtime (PyInt 101) "translated_text" db'
       = (Returned (PyStr "Hello world"), db').
Proof.
  destruct (@set_then_get_content_attribute sample_runtime sample_db
              (PyInt 101) (PyStr "Hello world") "translated_text"
              sample_content) as (db' & Hset & Hget & _);
    [reflexivity | reflexivity |].
  exists db'. split; [exact Hset | exact Hget].
Defined.

Lemma add_content_then_get_witness :
  exists n c,
    @add_content sample_runtime sample_collector "chan-42" (PyInt 1699999990)
      (PyStr "Hola") (PyDict []) sample_db
    = (Returned (PyInt n), set_content sample_db (content sample_db ++ [c]))
    /\ fst (@get_content_attribute sample_runtime (PyInt n) "original_text"
              (set_content sample_db (content sample_db ++ [c])))
       = Returned (PyStr "Hola").
Proof.
  destruct (@add_content_then_get sample_runtime sample_collector "chan-42"
              (PyInt 1699999990) (PyStr "Hola") (PyDict []) sample_db
              sample_source)
    as (n & c & Hadd & _ & _ & _ & Htext & _); [reflexivity|].
  exists n, c. split; [exact Hadd | exact Htext].
Defined.

Lemma add_source_keeps_keys_unique_witness :
  NoDup (SourceModel.id <$>
           source (snd (add_source sample_collector "chan-43"
                                   "Other Channel" sample_db)))
  /\ NoDup (source_keys (snd (add_source sample_collector "chan-43"
                                         "Other Channel" sample_db))).
Proof.
  apply (add_source_keeps_keys_unique sample_collector "chan-43"
           "Other Channel" sample_db); apply NoDup_singleton.
Defined.

Lemma telegram_init_registers_channels_witness :
  exists added,
    telegram_init sample_collector sample_dialogs sample_db
    = (Returned tt, set_source sample_db (source sample_db ++ added))
    /\ telegram_init sample_collector sample_dialogs
         (set_source sample_db (source sample_db ++ added))
       = (Returned tt, set_source sample_db (source sample_db ++ added)).
Proof.
  destruct (telegram_init_registers_channels sample_collector sample_dialogs
              sample_db) as (added & Hrun & _ & _ & Hagain).
  exists added. split; [exact Hrun | exact Hagain].
Defined.

Lemma collector_init_registers_once_witness :
  @Collector__init__ sample_runtime "telegram" "Telegram Channel Monitor"
    (OtherException "OperationalError") sample_db
  = (Returned sample_collector, sample_db)
  /\ @Collector__init__ offline_runtime "telegram" "Telegram Channel Monitor"
       (OtherException "OperationalError") sample_db
     = (Raised AttributeError, sample_db)
  /\ @Collector__init__ unreachable_runtime "telegram"
       "Telegram Channel Monitor" (OtherException "OperationalError")
       sample_db
     = (Raised (OtherException "OperationalError"), sample_db).
Proof.
  split; [|split].
  - destruct (@collector_init_registers_once sample_runtime "telegram"
                "Telegram Channel Monitor" (OtherException "OperationalError")
                sample_db) as (Hconnected & _).
    destruct Hconnected as (db' & c & Hinit & _ & _ & _ & Hrows);
      [reflexivity | reflexivity |].
    simpl in Hrows. destruct Hrows as [-> ->]. exact Hinit.
  - destruct (@collector_init_registers_once offline_runtime "telegram"
                "Telegram Channel Monitor" (OtherException "OperationalError")
                sample_db) as (_ & Hmissing & _).
    apply Hmissing. reflexivity.
  - destruct (@collector_init_registers_once unreachable_runtime "telegram"
                "Telegram Channel Monitor" (OtherException "OperationalError")
                sample_db) as (_ & _ & Hrefused).
    apply Hrefused; reflexivity.
Defined.

Lemma process_message_hands_over_witness :
  exists n c,
    @process_message sample_runtime sample_collector sample_event sample_world
    = (Returned tt,
       mkWorld (set_content sample_db (content sample_db ++ [c])) ∅ ∅
               [mkTask "translate_content" [PyInt n] "translation"])
    /\ @get_content_attribute sample_runtime (PyInt n) "original_text"
         (set_content sample_db (content sample_db ++ [c]))
       = (Returned (PyStr "Bonjour le monde"),
          set_content sample_db (content sample_db ++ [c])).
Proof.
  destruct (@process_message_hands_over sample_runtime sample_collector
              sample_event sample_world
              (mkMessage (Some "Bonjour le monde") (PyInt 1699999990))
              "Bonjour le monde" "chan-42" sample_source)
    as (n & c & Hrun & Hget & _);
    [reflexivity | reflexivity | discriminate | reflexivity | reflexivity |].
  exists n, c. split; [exact Hrun | exact Hget].
Defined.

Lemma process_message_without_source_witness :
  @process_message sample_runtime sample_collector sample_unknown_event
                   sample_world
  = (Returned tt, sample_world)
  /\ @process_message sample_runtime sample_collector sample_no_sender_event
                      sample_world
     = (Raised AttributeError, sample_world).
Proof.
  destruct (@process_message_without_source sample_runtime sample_collector
              sample_unknown_event sample_world
              (mkMessage (Some "Hola") (PyInt 1699999990)) "Hola")
    as [Hunknown _]; [reflexivity | reflexivity | discriminate |].
  destruct (@process_message_without_source sample_runtime sample_collector
              sample_no_sender_event sample_world
              (mkMessage (Some "Hola") (PyInt 1699999990)) "Hola")
    as [_ Hnobody]; [reflexivity | reflexivity | discriminate |].
  split; [apply (Hunknown "chan-99"); reflexivity | apply Hnobody; reflexivity].
Defined.

Lemma translate_content_succeeds_witness :
  fst (@translate_content sample_runtime (PyInt 101) sample_world)
  = Returned (PyBool true)
  /\ broker (snd (@translate_content sample_runtime (PyInt 101) sample_world))
     = [mkTask "analyse_content" [PyInt 101] "analysis"].
Proof.
  rewrite (@translate_content_succeeds sample_runtime (PyInt 101)
             sample_world sample_content "Bonjour le monde" "Hello world"
             stub_translate);
    [split; reflexivity | reflexivity.. | | reflexivity | discriminate].
  vm_compute. reflexivity.
Defined.

Lemma translate_content_again_witness :
  exists c w2,
    first (content_by_id (PyInt 101)) (content sample_db) = Some c
    /\ @translate_content sample_runtime (PyInt 101)
         (snd (@translate_content sample_runtime (PyInt 101) sample_world))
       = (Returned (PyBool true), w2)
    /\ database w2 = database sample_translated_world
    /\ broker w2
       = [mkTask "analyse_content" [PyInt 101] "analysis";
          mkTask "analyse_content" [PyInt 101] "analysis"].
Proof.
  destruct (translate_content_again sample_runtime sample_runtime (PyInt 101)
              sample_world
              (snd (@translate_content sample_runtime (PyInt 101)
                                       sample_world))
              stub_translate "Hello world")
    as (c & w2 & Hc & Hrun & Hdb & Hbroker).
  - vm_compute. reflexivity.
  - reflexivity.
  - reflexivity.
  - reflexivity.
  - vm_compute. reflexivity.
  - intros c Hc. vm_compute in Hc. injection Hc as <-. reflexivity.
  - discriminate.
  - exists c, w2. split; [exact Hc|]. split; [exact Hrun|].
    vm_compute in Hc. injection Hc as <-.
    split; [exact Hdb | exact Hbroker].
Defined.

Lemma translate_content_hands_over_witness :
  exists out,
    out <> ""
    /\ @get_content_attribute sample_runtime (PyInt 101) "translated_text"
         (database (snd (@translate_content sample_runtime (PyInt 101)
                                            sample_world)))
       = (Returned (PyStr out),
          database (snd (@translate_content sample_runtime (PyInt 101)
                                            sample_world))).
Proof.
  destruct (@translate_content_hands_over sample_runtime (PyInt 101)
              sample_world
              (snd (@translate_content sample_runtime (PyInt 101)
                                       sample_world)))
    as (out & Hnonempty & Hget & _); [vm_compute; reflexivity|].
  exists out. split; [exact Hnonempty | exact Hget].
Defined.


Lemma translate_content_when_provider_fails_witness :
  @translate_content rate_limited_runtime (PyInt 101) sample_world
  = (Raised (OtherException "RateLimitError"),
     mkWorld sample_db (register "gpt3.5" rate_limited_translate ∅) ∅ []).
Proof.
  destruct (@translate_content_when_provider_fails rate_limited_runtime
              (PyInt 101) sample_world sample_content "Bonjour le monde"
              rate_limited_translate)
    as (o & Hrun & Houtcome);
    [reflexivity | reflexivity | reflexivity | reflexivity | reflexivity
    | reflexivity | exact I |].
  simpl in Houtcome. rewrite Houtcome in Hrun. exact Hrun.
Defined.

Lemma tasks_without_database_witness :
  @translate_content offline_runtime (PyInt 101) sample_world
  = (Raised DatabaseConnectionError, sample_world)
  /\ @analyse_content offline_runtime (PyInt 101) sample_world
     = (Raised AttributeError, sample_world).
Proof.
  apply (@tasks_without_database offline_runtime (PyInt 101) sample_world).
  left. reflexivity.
Defined.

Lemma translate_content_early_failures_witness :
  @translate_content sample_runtime (PyInt 999) sample_world
  = (Raised ContentNotFoundError, sample_world)
  /\ fst (@translate_content deepl_only_runtime (PyInt 101) sample_world)
     = Raised TypeError.
Proof.
  destruct (@translate_content_early_failures sample_runtime (PyInt 999)
              sample_world) as (Hmissing & _); [reflexivity | reflexivity |].
  destruct (@translate_content_early_failures deepl_only_runtime (PyInt 101)
              sample_world) as (_ & _ & Hprovider);
    [reflexivity | reflexivity |].
  split.
  - apply Hmissing. intros c Hc. apply list_elem_of_singleton in Hc.
    subst c. discriminate.
  - rewrite (Hprovider sample_content "Bonjour le monde");
      [reflexivity | reflexivity | reflexivity | reflexivity |].
    vm_compute. reflexivity.
Defined.

Lemma analyse_content_succeeds_witness :
  exists new,
    @analyse_content sample_runtime (PyInt 101) sample_translated_world
    = (Returned (PyBool true),
       results_added (@analysis_loaded sample_runtime sample_translated_world)
                     new)
    /\ Forall2 (answers stub_analyse (PyInt 101) (PyStr "Hello world")
                        (PyInt 1700000000))
               new [sample_requirement].
Proof.
  apply (@analyse_content_succeeds sample_runtime (PyInt 101)
           sample_translated_world
           (with_translated_text sample_content (PyStr "Hello world"))
           sample_source stub_analyse); try reflexivity.
  repeat constructor. exists "neutral". reflexivity.
Defined.

Lemma analyse_content_fails_fast_witness :
  fst (@analyse_content picky_runtime (PyInt 101)
         sample_two_requirements_world)
  = Raised AnalysisException
  /\ exists new,
       analysis_result
         (database (snd (@analyse_content picky_runtime (PyInt 101)
                           sample_two_requirements_world)))
       = [] ++ new
       /\ (AnalysisResultModel.req_id <$> new) `prefix_of` [PyInt 5; PyInt 6]
       /\ Forall (fun res => exists out,
                    AnalysisResultModel.output res = PyStr out) new.
Proof.
  split; [vm_compute; reflexivity|].
  destruct (@analyse_content_fails_fast picky_runtime (PyInt 101)
              sample_two_requirements_world
              (snd (@analyse_content picky_runtime (PyInt 101)
                      sample_two_requirements_world))
              (fst (@analyse_content picky_runtime (PyInt 101)
                      sample_two_requirements_world))
              (with_translated_text sample_content (PyStr "Hello world")))
    as (new & Hresults & Hprefix & Hstrings & _);
    [apply surjective_pairing | reflexivity |].
  exists new. split; [exact Hresults|]. split; [exact Hprefix | exact Hstrings].
Defined.


Lemma analyse_content_without_provider_witness :
  @analyse_content deepl_only_runtime (PyInt 101) sample_translated_world
  = (Returned (PyBool false),
     @analysis_loaded deepl_only_runtime sample_translated_world).
Proof.
  apply (@analyse_content_without_provider deepl_only_runtime (PyInt 101)
           sample_translated_world
           (with_translated_text sample_content (PyStr "Hello world"))
           sample_source); reflexivity.
Defined.

Lemma analyse_content_missing_rows_witness :
  @analyse_content sample_runtime (PyInt 999) sample_translated_world
  = (Raised ContentNotFoundError,
     @analysis_loaded sample_runtime sample_translated_world).
Proof.
  destruct (@analyse_content_missing_rows sample_runtime (PyInt 999)
              sample_translated_world) as [Hmissing _];
    [reflexivity | reflexivity | reflexivity |].
  apply Hmissing. intros c Hc. apply list_elem_of_singleton in Hc.
  subst c. discriminate.
Defined.

Lemma analyse_content_is_terminal_witness :
  broker (snd (@analyse_content sample_runtime (PyInt 101)
                 sample_translated_world))
  = []
  /\ source (database (snd (@analyse_content sample_runtime (PyInt 101)
                              sample_translated_world)))
     = [sample_source].
Proof.
  destruct (@analyse_content_is_terminal sample_runtime (PyInt 101)
              sample_translated_world
              (snd (@analyse_content sample_runtime (PyInt 101)
                      sample_translated_world))
              (fst (@analyse_content sample_runtime (PyInt 101)
                      sample_translated_world)))
    as (Hbroker & _ & Hsource & _); [apply surjective_pairing|].
  split; [exact Hbroker | exact Hsource].
Defined.

Lemma analyse_content_again_witness :
  exists first_rows second_rows,
    analysis_result
      (database
         (snd (@analyse_content sample_runtime (PyInt 101)
                 (snd (@analyse_content sample_runtime (PyInt 101)
                         sample_translated_world)))))
    = [] ++ first_rows ++ second_rows
    /\ AnalysisResultModel.req_id <$> first_rows = [PyInt 5]
    /\ AnalysisResultModel.req_id <$> second_rows = [PyInt 5].
Proof.
  apply (analyse_content_again sample_runtime sample_runtime (PyInt 101)
           sample_translated_world
           (snd (@analyse_content sample_runtime (PyInt 101)
                   sample_translated_world))
           (snd (@analyse_content sample_runtime (PyInt 101)
                   (snd (@analyse_content sample_runtime (PyInt 101)
                           sample_translated_world))))
           (with_translated_text sample_content (PyStr "Hello world")));
    [vm_compute; reflexivity | vm_compute; reflexivity | reflexivity].
Defined.

(** ** The analysis task, failures inside the loop *)

Section AnalyseFailures.

Context {rt : Runtime}.

Lemma analyse_requirement_failure (content_id text : PyVal)
    (r : AnalysisRequirementModel.t) (w : World)
    (service : AnalysisService) (e : PyExn) :
  get_service "gpt3.5" (analysis_registry w) = Some service ->
  (analyse service (AnalysisRequirementModel.prompt r) text = Raised e
   \/ exists v,
        analyse service (AnalysisRequirementModel.prompt r) text = Returned v
        /\ slice_prefix v = Raised e) ->
  analyse_requirement content_id text (requirement_dict r) w = (Raised e, w).
Proof.
  intros Hservice Hfails.
  destruct (requirement_dict_keys r) as (_ & Hid & Hname & Hllm & Hprompt).
  unfold analyse_requirement, subscript, analysis_service, on_database,
    of_outcome, raise, mbind, M_bind, mret, M_ret.
  rewrite Hname, Hllm, Hservice, Hprompt.
  destruct Hfails as [-> | (v & -> & ->)]; reflexivity.
Qed.

Lemma analyse_requirements_failure (content_id text : PyVal)
    (done rest : list AnalysisRequirementModel.t)
    (r : AnalysisRequirementModel.t) (w : World)
    (service : AnalysisService) (e : PyExn) :
  get_service "gpt3.5" (analysis_registry w) = Some service ->
  Forall (fun r => exists out,
            analyse service (AnalysisRequirementModel.prompt r) text
            = Returned (PyStr out)) done ->
  (analyse service (AnalysisRequirementModel.prompt r) text = Raised e
   \/ exists v,
        analyse service (AnalysisRequirementModel.prompt r) text = Returned v
        /\ slice_prefix v = Raised e) ->
  exists new,
    analyse_requirements content_id text
      (requirement_dict <$> (done ++ r :: rest)) w
    = (Raised e, results_added w new)
    /\ Forall2 (answers service content_id text utcnow) new done.
Proof.
  intros Hservice Hdone Hfails. revert w Hservice.
  induction Hdone as [|r0 done [out Hout] _ IH]; intros w Hservice.
  - exists []. rewrite results_added_nil. split; [|constructor].
    simpl app. rewrite fmap_cons, analyse_requirements_cons.
    by rewrite (analyse_requirement_failure _ _ r w service e).
  - simpl app. rewrite fmap_cons, analyse_requirements_cons.
    rewrite (analyse_requirement_answer _ _ r0 w service out Hservice Hout).
    destruct (IH (results_added w
                    [AnalysisResultModel.mk
                       (PyInt (next_id (AnalysisResultModel.id <$>
                                          analysis_result (database w))))
                       (AnalysisRequirementModel.id r0) content_id utcnow
                       (PyStr out)]) Hservice) as (new & -> & Hnew).
    eexists (_ :: new). rewrite results_added_app. split; [reflexivity|].
    constructor; [|exact Hnew]. exists out. done.
Qed.

(** X23.  The first requirement the provider does not answer with a string
    ends the invocation: when the provider raises for it, or answers with a
    value that cannot be sliced, the task raises that exception, the
    requirements behind it are not attempted, and the answers to those
    before it stay stored. *)
Theorem analyse_content_stops_at_failure (content_id : PyVal) (w : World)
    (c : ContentModel.t) (s : SourceModel.t) (service : AnalysisService)
    (done rest : list AnalysisRequirementModel.t)
    (r : AnalysisRequirementModel.t) (e : PyExn) :
  mysql_params = true -> database_connect = true ->
  snd analysis_modules = None ->
  first (content_by_id content_id) (content (database w)) = Some c ->
  first (source_by_id (ContentModel.source_id c)) (source (database w))
  = Some s ->
  truthy (SourceModel.enabled s) = true ->
  get_service "gpt3.5" (analysis_registry (analysis_loaded w))
  = Some service ->
  enabled_requirements (ContentModel.source_id c) (database w)
  = done ++ r :: rest ->
  Forall (fun r => exists out,
            analyse service (AnalysisRequirementModel.prompt r)
                    (ContentModel.translated_text c)
            = Returned (PyStr out)) done ->
  (analyse service (AnalysisRequirementModel.prompt r)
           (ContentModel.translated_text c) = Raised e
   \/ exists v,
        analyse service (AnalysisRequirementModel.prompt r)
                (ContentModel.translated_text c) = Returned v
        /\ slice_prefix v = Raised e) ->
  exists new,
    analyse_content content_id w
    = (Raised e, results_added (analysis_loaded w) new)
    /\ Forall2 (answers service content_id
                        (ContentModel.translated_text c) utcnow)
               new done.
Proof.
  intros Hparams Hconnect Hload Hc Hs Henabled Hservice Hrows Hdone Hfails.
  rewrite (analyse_content_loop _ _ c s) by done. rewrite Hrows.
  by apply analyse_requirements_failure.
Qed.

(** X24.  A source whose [enabled] is not true, be it [False], null or 0,
    is skipped: with the database reachable and the modules loading, the
    task returns [None] and stores nothing. *)
Theorem analyse_content_skips_source (content_id : PyVal) (w : World)
    (c : ContentModel.t) (s : SourceModel.t) :
  mysql_params = true -> database_connect = true ->
  snd analysis_modules = None ->
  first (content_by_id content_id) (content (database w)) = Some c ->
  first (source_by_id (ContentModel.source_id c)) (source (database w))
  = Some s ->
  truthy (SourceModel.enabled s) = false ->
  analyse_content content_id w = (Returned PyNone, analysis_loaded w).
Proof.
  intros Hparams Hconnect Hload Hc Hs Henabled.
  unfold analyse_content. rewrite bind_eq.
  unfold connect_db_or_attribute_error.
  rewrite (connect_db_ok w Hparams Hconnect). rewrite bind_eq.
  destruct (or_disconnect_load_analysis w)
    as [(_ & ->) | (e & Hfail & _)]; [|done].
  rewrite bind_eq, on_get_content_attribute.
  unfold get_content_attribute, session_scope. simpl. rewrite Hc. simpl.
  rewrite bind_eq. unfold on_database at 1. simpl. rewrite Hc. simpl.
  rewrite bind_eq. unfold on_database at 1.
  unfold get_source_attribute, session_scope. simpl.
  change (default PyNone (content_getattr c "source_id"))
    with (ContentModel.source_id c).
  rewrite Hs. simpl.
  change (default PyNone (source_getattr s "enabled"))
    with (SourceModel.enabled s).
  by rewrite Henabled.
Qed.

End AnalyseFailures.

Lemma analyse_content_stops_at_failure_witness :
  exists new,
    @analyse_content picky_runtime (PyInt 101) sample_two_requirements_world
    = (Raised AnalysisException,
       results_added
         (@analysis_loaded picky_runtime sample_two_requirements_world) new)
    /\ Forall2 (answers picky_analyse (PyInt 101) (PyStr "Hello world")
                        (PyInt 1700000000))
               new [sample_requirement].
Proof.
  apply (@analyse_content_stops_at_failure picky_runtime (PyInt 101)
           sample_two_requirements_world
           (with_translated_text sample_content (PyStr "Hello world"))
           sample_source picky_analyse [sample_requirement] []
           (AnalysisRequirementModel.mk (PyInt 6) (PyInt 7) (PyInt 1)
              (PyStr "entities") (PyStr "entities") (PyBool true))
           AnalysisException);
    [reflexivity | reflexivity | reflexivity | reflexivity | reflexivity
    | reflexivity | reflexivity | reflexivity | | by left].
  repeat constructor. exists "neutral". reflexivity.
Defined.

Lemma analyse_content_skips_source_witness :
  @analyse_content sample_runtime (PyInt 101) sample_null_source_world
  = (Returned PyNone,
     @analysis_loaded sample_runtime sample_null_source_world).
Proof.
  apply (@analyse_content_skips_source sample_runtime (PyInt 101)
           sample_null_source_world
           (with_translated_text sample_content (PyStr "Hello world"))
           (SourceModel.mk (PyInt 7) (PyInt 1) (PyStr "chan-42")
                           (PyStr "News Channel") PyNone PyNone PyNone));
    reflexivity.
Defined.
